(** * prosail/sail_model.py: the PROSAIL driver functions

    A shallow embedding of [run_sail] and [run_prosail] (Python 2).  The two
    functions validate the output-factor selector, resolve the two soil
    component spectra and the background soil spectrum, call the leaf and
    canopy models and slice the requested reflectance factor out of the
    canopy model's result.

    - Python floats and numpy float64 entries are the kernel's binary64
      floats; a spectrum is a 1-D numpy array, a list of them, and the canopy
      model's result a 2-D array, a list of rows.
    - Exceptions and the calls to the models are threaded through a small
      monad: a computation yields the trace of the steps it performed and
      either a value or the exception it raised.  Assertions are enabled.
    - The module's global names are an explicit environment: a name that is
      not bound raises [NameError] when it is read.  [module_globals] is the
      environment the file builds by itself; the statements about what is
      passed to and returned from the canopy model hold in any environment
      that binds the names they need. *)

From Stdlib Require Import ZArith Floats Ascii String Bool Lia.
From stdpp Require Import base option list.

Local Open Scope string_scope.
Local Open Scope list_scope.

(** ** Arrays *)

Definition spectrum := list float.
Definition matrix := list spectrum.

(** ** Exceptions *)

Inductive exn :=
| ValueError (msg : string)
| AssertionError
| NameError (name : string)
| IndexError.

Inductive outcome (A : Type) :=
| Return (a : A)
| Raise (e : exn).
Arguments Return {A} a.
Arguments Raise {A} e.

(** ** Calls to the two models *)

(** The positional arguments of [sail(...)], lines 109-110 and 207-208. *)
Record SailCall := {
  sc_refl : spectrum;
  sc_trans : spectrum;
  sc_lai : float;
  sc_lidfa : float;
  sc_lidfb : float;
  sc_rsoil0 : spectrum;
  sc_hspot : float;
  sc_tts : float;
  sc_tto : float;
  sc_psi : float;
  sc_typelidf : Z
}.

(** The arguments of [run_prospect(...)], lines 104-107. *)
Record ProspectCall := {
  pc_n : float;
  pc_cab : float;
  pc_car : float;
  pc_cbrown : float;
  pc_cw : float;
  pc_cm : float;
  pc_ant : float;
  pc_prospect_version : string;
  pc_nr : spectrum;
  pc_kab : spectrum;
  pc_kcar : spectrum;
  pc_kbrown : spectrum;
  pc_kw : spectrum;
  pc_km : spectrum;
  pc_kant : spectrum;
  pc_alpha : float
}.

(** ** Steps a call performs, in order *)

Inductive event :=
| EvMix                       (* the soil mixture expression is evaluated *)
| EvProspect (c : ProspectCall) (* the leaf model is called *)
| EvSail (c : SailCall).        (* the canopy model is called *)

(** ** The monad: trace of steps, then value or exception *)

Definition M (A : Type) : Type := (list event * outcome A)%type.

Definition ret {A} (a : A) : M A := ([], Return a).
Definition raise {A} (e : exn) : M A := ([], Raise e).
Definition tell (ev : event) : M unit := ([ev], Return tt).
Definition lift {A} (o : outcome A) : M A := ([], o).

Definition bind {A B} (m : M A) (k : A -> M B) : M B :=
  match m with
  | (t, Raise e) => (t, Raise e)
  | (t, Return a) => let '(t', r) := k a in (t ++ t', r)
  end.

Declare Scope py_scope.
Delimit Scope py_scope with py.
Notation "x <- m ;; k" := (bind m (fun x => k))
  (at level 100, m at next level, right associativity) : py_scope.
Notation "m ;; k" := (bind m (fun _ => k))
  (at level 100, right associativity) : py_scope.
Local Open Scope py_scope.

(** ** Python primitives *)

(** [assert b] *)
Definition py_assert (b : bool) : M unit :=
  if b then ret tt else raise AssertionError.

(** Reading a global name. *)
Definition load_global {A} (name : string) (binding : option A) : M A :=
  match binding with
  | Some v => ret v
  | None => raise (NameError name)
  end.

(** [str.upper()] on a byte string: only a-z change. *)
Definition upper_ascii (c : ascii) : ascii :=
  let n := N_of_ascii c in
  if ((97 <=? n) && (n <=? 122))%N then ascii_of_N (n - 32) else c.

Fixpoint upper (s : string) : string :=
  match s with
  | EmptyString => EmptyString
  | String c s' => String (upper_ascii c) (upper s')
  end.

(** [x in l] for a list of strings. *)
Definition str_in (x : string) (l : list string) : bool :=
  existsb (String.eqb x) l.

(** [c * a] for a scalar [c] and a 1-D array [a]. *)
Definition np_scale (c : float) (a : spectrum) : spectrum :=
  map (fun x => (c * x)%float) a.

(** [a + b] for 1-D arrays: equal lengths add elementwise, a length-1 array
    is broadcast, anything else is numpy's broadcasting [ValueError]. *)
Definition np_add (a b : spectrum) : M spectrum :=
  if (length a =? length b)%nat then
    ret (zip_with (fun x y => (x + y)%float) a b)
  else
    match a, b with
    | [x], _ => ret (map (fun y => (x + y)%float) b)
    | _, [y] => ret (map (fun x => (x + y)%float) a)
    | _, _ => raise (ValueError "operands could not be broadcast together")
    end.

(** [rho[k, :]] *)
Definition row (rho : matrix) (k : nat) : M spectrum :=
  match rho !! k with
  | Some r => ret r
  | None => raise IndexError
  end.

(** ** The module's global names *)

Record SpectralLibs := {
  rsoil1 : spectrum;
  rsoil2 : spectrum
}.

Definition SailFn := SailCall -> outcome matrix.
Definition ProspectFn := ProspectCall -> outcome (spectrum * spectrum * spectrum).

(** [run_prospect] is bound by the import of line 5.  The other names are
    read by the two functions; each is bound or not. *)
Record Globals := {
  g_run_prospect : ProspectFn;
  g_spectral_libs : option SpectralLibs;
  g_sail : option SailFn;
  g_nr : option spectrum;
  g_kab : option spectrum;
  g_kcar : option spectrum;
  g_kbrown : option spectrum;
  g_kw : option spectrum;
  g_km : option spectrum;
  g_kant : option spectrum
}.

(** The names the file itself binds at top level are [np], [scipy],
    [run_prospect], [run_prosail] and [run_sail] (lines 2-7 and 124): of the
    names above only [run_prospect] is bound. *)
Definition module_globals (run_prospect : ProspectFn) : Globals := {|
  g_run_prospect := run_prospect;
  g_spectral_libs := None;
  g_sail := None;
  g_nr := None;
  g_kab := None;
  g_kcar := None;
  g_kbrown := None;
  g_kw := None;
  g_km := None;
  g_kant := None
|}.

Definition call_sail (f : SailFn) (c : SailCall) : M matrix :=
  tell (EvSail c) ;; lift (f c).

Definition call_prospect (f : ProspectFn) (c : ProspectCall)
  : M (spectrum * spectrum * spectrum) :=
  tell (EvProspect c) ;; lift (f c).

(** ** The driver *)

Definition factors : list string := ["SDR"; "BHR"; "DHR"; "HDR"; "ALL"].

(** Lines 85 and 189. *)
Definition factor_msg : string :=
  "'factor' must be one of SDR, BHR, DHR, HDR or ALL".

(** Lines 99-100. *)
Definition prosail_soil_msg : string :=
  "If rsoil0 isn't define, then rsoil and psoil need to be defined!".

(** Lines 203-204. *)
Definition sail_soil_msg : string :=
  "If rsoil0 isn't defined, then rsoil and psoil need to be defined!".

(** What a call returns: one row, the whole array, or [None] when the
    if/elif chain falls through. *)
Inductive retval :=
| RetSpectrum (s : spectrum)
| RetAll (rho : matrix)
| RetNone.

(** The blocks the two functions share, in source order. *)

(** Lines 83-85 and 187-189: upper-case the selector and check it. *)
Definition check_factor (factor : string) : M string :=
  let factor := upper factor in
  if negb (str_in factor factors) then raise (ValueError factor_msg)
  else ret factor.

(** Lines 87-90 and 191-194. *)
Definition component1 (g : Globals) (soil_spectrum1 : option spectrum)
  : M spectrum :=
  match soil_spectrum1 with
  | Some s => py_assert (length s =? 2101)%nat ;; ret s
  | None =>
      spectral_libs <- load_global "spectral_libs" (g_spectral_libs g) ;;
      ret (rsoil1 spectral_libs)
  end.

(** Lines 92-95 and 196-199; the assertion reads [soil_spectrum1]. *)
Definition component2 (g : Globals) (soil_spectrum1 : spectrum)
    (soil_spectrum2 : option spectrum) : M spectrum :=
  match soil_spectrum2 with
  | Some s => py_assert (length soil_spectrum1 =? 2101)%nat ;; ret s
  | None =>
      spectral_libs <- load_global "spectral_libs" (g_spectral_libs g) ;;
      ret (rsoil2 spectral_libs)
  end.

(** [rsoil * (psoil * soil_spectrum1 + (1. - psoil) * soil_spectrum2)],
    lines 101-102 and 205-206. *)
Definition soil_mixture (rsoil psoil : float)
    (soil_spectrum1 soil_spectrum2 : spectrum) : M spectrum :=
  tell EvMix ;;
  t <- np_add (np_scale psoil soil_spectrum1)
              (np_scale (1 - psoil)%float soil_spectrum2) ;;
  ret (np_scale rsoil t).

(** Lines 97-102 and 201-206; [msg] is the function's own message. *)
Definition background (msg : string)
    (rsoil0 : option spectrum) (rsoil psoil : option float)
    (soil_spectrum1 soil_spectrum2 : spectrum) : M spectrum :=
  match rsoil0 with
  | Some r => ret r
  | None =>
      match rsoil, psoil with
      | Some rsoil, Some psoil =>
          soil_mixture rsoil psoil soil_spectrum1 soil_spectrum2
      | _, _ => raise (ValueError msg)
      end
  end.

(** Lines 112-121 and 210-219. *)
Definition select_factor (factor : string) (rho : matrix) : M retval :=
  if String.eqb factor "SDR" then r <- row rho 0 ;; ret (RetSpectrum r)
  else if String.eqb factor "BHR" then r <- row rho 1 ;; ret (RetSpectrum r)
  else if String.eqb factor "DHR" then r <- row rho 2 ;; ret (RetSpectrum r)
  else if String.eqb factor "HDR" then r <- row rho 3 ;; ret (RetSpectrum r)
  else if String.eqb factor "ALL" then ret (RetAll rho)
  else ret RetNone.

(** Lines 124-219. *)
Definition run_sail (g : Globals)
    (refl trans : spectrum) (lai lidfa hspot tts tto psi : float)
    (typelidf : Z) (lidfb : float) (factor : string)
    (rsoil0 : option spectrum) (rsoil psoil : option float)
    (soil_spectrum1 soil_spectrum2 : option spectrum) : M retval :=
  factor <- check_factor factor ;;
  soil_spectrum1 <- component1 g soil_spectrum1 ;;
  soil_spectrum2 <- component2 g soil_spectrum1 soil_spectrum2 ;;
  rsoil0 <- background sail_soil_msg rsoil0 rsoil psoil
              soil_spectrum1 soil_spectrum2 ;;
  sail <- load_global "sail" (g_sail g) ;;
  rho <- call_sail sail
           {| sc_refl := refl; sc_trans := trans; sc_lai := lai;
              sc_lidfa := lidfa; sc_lidfb := lidfb; sc_rsoil0 := rsoil0;
              sc_hspot := hspot; sc_tts := tts; sc_tto := tto;
              sc_psi := psi; sc_typelidf := typelidf |} ;;
  select_factor factor rho.

(** Lines 7-121.  The call of lines 104-107 reads [run_prospect], then the
    seven global names of its keyword arguments in order, then calls. *)
Definition run_prosail (g : Globals)
    (n cab car cbrown cw cm lai lidfa hspot tts tto psi ant alpha : float)
    (prospect_version : string) (typelidf : Z) (lidfb : float)
    (factor : string)
    (rsoil0 : option spectrum) (rsoil psoil : option float)
    (soil_spectrum1 soil_spectrum2 : option spectrum) : M retval :=
  factor <- check_factor factor ;;
  soil_spectrum1 <- component1 g soil_spectrum1 ;;
  soil_spectrum2 <- component2 g soil_spectrum1 soil_spectrum2 ;;
  rsoil0 <- background prosail_soil_msg rsoil0 rsoil psoil
              soil_spectrum1 soil_spectrum2 ;;
  let run_prospect := g_run_prospect g in
  nr <- load_global "nr" (g_nr g) ;;
  kab <- load_global "kab" (g_kab g) ;;
  kcar <- load_global "kcar" (g_kcar g) ;;
  kbrown <- load_global "kbrown" (g_kbrown g) ;;
  kw <- load_global "kw" (g_kw g) ;;
  km <- load_global "km" (g_km g) ;;
  kant <- load_global "kant" (g_kant g) ;;
  leaf <- call_prospect run_prospect
           {| pc_n := n; pc_cab := cab; pc_car := car; pc_cbrown := cbrown;
              pc_cw := cw; pc_cm := cm; pc_ant := ant;
              pc_prospect_version := prospect_version;
              pc_nr := nr; pc_kab := kab; pc_kcar := kcar;
              pc_kbrown := kbrown; pc_kw := kw; pc_km := km;
              pc_kant := kant; pc_alpha := alpha |} ;;
  let '(wv, refl, trans) := leaf in
  sail <- load_global "sail" (g_sail g) ;;
  rho <- call_sail sail
           {| sc_refl := refl; sc_trans := trans; sc_lai := lai;
              sc_lidfa := lidfa; sc_lidfb := lidfb; sc_rsoil0 := rsoil0;
              sc_hspot := hspot; sc_tts := tts; sc_tto := tto;
              sc_psi := psi; sc_typelidf := typelidf |} ;;
  select_factor factor rho.

(** ** Vocabulary of the statements *)

(** The component spectrum a call works with: the caller's array when one is
    supplied, otherwise the default read from [spectral_libs]. *)
Definition soil_component (libs : option SpectralLibs)
    (default : SpectralLibs -> spectrum) (supplied : option spectrum)
  : option spectrum :=
  match supplied with
  | Some s => Some s
  | None => default <$> libs
  end.

(** Both components are available, the first with 2101 entries. *)
Definition components (libs : option SpectralLibs)
    (soil_spectrum1 soil_spectrum2 : option spectrum) (s1 s2 : spectrum)
  : Prop :=
  soil_component libs rsoil1 soil_spectrum1 = Some s1 /\
  length s1 = 2101 /\
  soil_component libs rsoil2 soil_spectrum2 = Some s2.

(** A call whose soil inputs resolve to the background spectrum [soil]: the
    components are available and either [rsoil0] is supplied or both scalars
    are and the mixture evaluates. *)
Definition resolves_soil (libs : option SpectralLibs)
    (rsoil0 : option spectrum) (rsoil psoil : option float)
    (soil_spectrum1 soil_spectrum2 : option spectrum) (soil : spectrum)
  : Prop :=
  exists s1 s2,
    components libs soil_spectrum1 soil_spectrum2 s1 s2 /\
    (rsoil0 = Some soil \/
     (rsoil0 = None /\
      exists r p, rsoil = Some r /\ psoil = Some p /\
                  (soil_mixture r p s1 s2).2 = Return soil)).

(** The calls to the models recorded in a trace. *)
Definition is_physics (ev : event) : bool :=
  match ev with
  | EvMix => false
  | EvProspect _ | EvSail _ => true
  end.

(** Every spelling of [name] that differs from it only in letter case. *)
Definition lower_ascii (c : ascii) : ascii :=
  let n := N_of_ascii c in
  if ((65 <=? n) && (n <=? 90))%N then ascii_of_N (n + 32) else c.

Fixpoint casings (name : string) : list string :=
  match name with
  | EmptyString => [EmptyString]
  | String c s =>
      flat_map (fun t => [String c t; String (lower_ascii c) t]) (casings s)
  end.

(** [msg] contains [name]. *)
Definition mentions (msg name : string) : bool :=
  match index 0 name msg with
  | Some _ => true
  | None => false
  end.

(** ** How the shared blocks end *)

(** The four ways the first component block ends. *)
Inductive component1_spec (g : Globals)
  : option spectrum -> M spectrum -> Prop :=
| component1_supplied s :
    length s = 2101 -> component1_spec g (Some s) ([], Return s)
| component1_malformed s :
    length s <> 2101 -> component1_spec g (Some s) ([], Raise AssertionError)
| component1_default libs :
    g_spectral_libs g = Some libs ->
    component1_spec g None ([], Return (rsoil1 libs))
| component1_unbound :
    g_spectral_libs g = None ->
    component1_spec g None ([], Raise (NameError "spectral_libs")).

(** The second block: its assertion is about the first component. *)
Inductive component2_spec (g : Globals) (s1 : spectrum)
  : option spectrum -> M spectrum -> Prop :=
| component2_supplied s :
    length s1 = 2101 -> component2_spec g s1 (Some s) ([], Return s)
| component2_malformed s :
    length s1 <> 2101 ->
    component2_spec g s1 (Some s) ([], Raise AssertionError)
| component2_default libs :
    g_spectral_libs g = Some libs ->
    component2_spec g s1 None ([], Return (rsoil2 libs))
| component2_unbound :
    g_spectral_libs g = None ->
    component2_spec g s1 None ([], Raise (NameError "spectral_libs")).

(** The three ways the background block ends. *)
Inductive background_spec (msg : string) (s1 s2 : spectrum)
  : option spectrum -> option float -> option float -> M spectrum -> Prop :=
| background_precomputed r rsoil psoil :
    background_spec msg s1 s2 (Some r) rsoil psoil ([], Return r)
| background_mixed rsoil psoil o :
    (soil_mixture rsoil psoil s1 s2).2 = o ->
    background_spec msg s1 s2 None (Some rsoil) (Some psoil) ([EvMix], o)
| background_underspecified rsoil psoil :
    rsoil = None \/ psoil = None ->
    background_spec msg s1 s2 None rsoil psoil ([], Raise (ValueError msg)).

(** ** Classes of binary64 values *)

Definition SFfinite (x : spec_float) : bool :=
  match x with
  | S754_zero _ | S754_finite _ _ _ => true
  | _ => false
  end.

Definition SFzero (x : spec_float) : bool :=
  match x with
  | S754_zero _ => true
  | _ => false
  end.

(** ** Concrete calls *)

(** A constant spectrum on the 2101 wavelengths. *)
Definition flat (x : float) : spectrum := replicate 2101 x.

(** A spectrum one entry short. *)
Definition short (x : float) : spectrum := replicate 2100 x.

(** A canopy model that answers with four rows as wide as the soil spectrum
    it is given: the soil spectrum and its multiples by 2, 3 and 4. *)
Definition demo_sail : SailFn :=
  fun c =>
    Return [sc_rsoil0 c; np_scale 2 (sc_rsoil0 c); np_scale 3 (sc_rsoil0 c);
            np_scale 4 (sc_rsoil0 c)].

Definition demo_prospect : ProspectFn :=
  fun c => Return (pc_nr c, pc_kab c, pc_kcar c).

(** An environment in which every name the two functions read is bound. *)
Definition demo_globals : Globals := {|
  g_run_prospect := demo_prospect;
  g_spectral_libs := Some {| rsoil1 := flat 0.5; rsoil2 := flat 0.25 |};
  g_sail := Some demo_sail;
  g_nr := Some (flat 1);
  g_kab := Some (flat 0.5);
  g_kcar := Some (flat 0.25);
  g_kbrown := Some (flat 0);
  g_kw := Some (flat 0);
  g_km := Some (flat 0);
  g_kant := Some (flat 0)
|}.

(** [run_sail] and [run_prosail] on fixed leaf, canopy and geometry
    arguments: LAI 3, mean leaf angle 50, hotspot 0.5, sun at 30, nadir
    view. *)
Definition demo_run_sail (g : Globals) :=
  run_sail g (flat 0.5) (flat 0.25) 3 50 0.5 30 0 0 2 0.

Definition demo_run_prosail (g : Globals) :=
  run_prosail g 1.5 40 8 0 0.5 0.5 3 50 0.5 30 0 0 0 40 "5" 2 0.

Definition demo_canopy_call (soil : spectrum) : SailCall :=
  {| sc_refl := flat 0.5; sc_trans := flat 0.25; sc_lai := 3;
     sc_lidfa := 50; sc_lidfb := 0; sc_rsoil0 := soil;
     sc_hspot := 0.5; sc_tts := 30; sc_tto := 0;
     sc_psi := 0; sc_typelidf := 2 |}.

(** Models that refuse their arguments with a given exception. *)
Definition failing_sail (e : exn) : SailFn := fun _ => Raise e.

Definition failing_prospect (e : exn) : ProspectFn := fun _ => Raise e.

(** A canopy model that answers with two rows only. *)
Definition two_row_sail : SailFn :=
  fun c => Return [sc_rsoil0 c; np_scale 2 (sc_rsoil0 c)].

(** Default component spectra one entry short. *)
Definition short_libs : SpectralLibs :=
  {| rsoil1 := short 0.5; rsoil2 := short 0.25 |}.

(** [demo_globals] with other models and other default spectra. *)
Definition globals_with (leaf : ProspectFn) (canopy : SailFn)
    (libs : SpectralLibs) : Globals := {|
  g_run_prospect := leaf;
  g_spectral_libs := Some libs;
  g_sail := Some canopy;
  g_nr := Some (flat 1);
  g_kab := Some (flat 0.5);
  g_kcar := Some (flat 0.25);
  g_kbrown := Some (flat 0);
  g_kw := Some (flat 0);
  g_km := Some (flat 0);
  g_kant := Some (flat 0)
|}.

(** ** Binary64 facts used by the mixture *)

Module Binary64.

Local Open Scope float_scope.

Lemma SF64mul_one_l (x : spec_float) :
  valid_binary x = true -> SF64mul (Prim2SF 1) x = x.
Proof.
  change (Prim2SF 1) with (S754_finite false 4503599627370496 (-52)).
  destruct x as [s|s| |s m e]; try reflexivity.
  intros Hv. unfold SF64mul, SFmul. cbn [xorb].
  replace (4503599627370496 * m)%positive with (Pos.iter xO m 52)
    by reflexivity.
  unfold valid_binary, bounded, canonical_mantissa in Hv.
  apply andb_prop in Hv as [Hc Hb]. apply Z.eqb_eq in Hc.
  unfold binary_round_aux, shr_fexp.
  assert (Hd : (Zdigits2 (Z.pos (Pos.iter xO m 52)) + (-52 + e)
                = Z.pos (digits2_pos m) + e)%Z).
  { cbn [Zdigits2 Pos.iter digits2_pos]. lia. }
  rewrite Hd, Hc.
  replace (e - (-52 + e))%Z with 52%Z by lia.
  cbn [shr shr_record_of_loc SpecFloat.iter_pos Pos.iter shr_1 orb shr_m
       loc_of_shr_record round_nearest_even Zdigits2].
  replace (-52 + e + 52)%Z with e by lia.
  rewrite Hc, Z.sub_diag. cbn [shr shr_m].
  now rewrite Hb.
Qed.

(** [1.0 * x] is [x], for every [x]. *)
Lemma mul_one_l (x : float) : 1 * x = x.
Proof.
  apply Prim2SF_inj. rewrite FloatAxioms.mul_spec.
  apply SF64mul_one_l, Prim2SF_valid.
Qed.

Lemma SFeqb_refl_finite s m e :
  SFeqb (S754_finite s m e) (S754_finite s m e) = true.
Proof.
  unfold SFeqb, SFcompare.
  rewrite Z.compare_refl, Pos.compare_cont_refl.
  now destruct s.
Qed.

Lemma is_finite_SF (x : float) :
  is_finite x = true -> SFfinite (Prim2SF x) = true.
Proof.
  unfold is_finite, is_nan, is_infinity.
  rewrite !FloatAxioms.eqb_spec, FloatAxioms.abs_spec.
  change (Prim2SF infinity) with (S754_infinity false).
  destruct (Prim2SF x) as [s|s| |s m e]; cbn; try reflexivity.
  - now rewrite orb_true_r.
  - auto.
Qed.

(** [0.0 * x] is a zero when [x] is finite. *)
Lemma mul_zero_l (x : float) :
  is_finite x = true -> SFzero (Prim2SF (0 * x)) = true.
Proof.
  intros H%is_finite_SF. rewrite FloatAxioms.mul_spec.
  change (Prim2SF 0) with (S754_zero false).
  now destruct (Prim2SF x).
Qed.

(** Adding a zero to a finite [x] gives a float that compares equal to [x]. *)
Lemma add_zero_r (x z : float) :
  is_finite x = true -> SFzero (Prim2SF z) = true -> (x + z =? x) = true.
Proof.
  intros Hx%is_finite_SF Hz. rewrite FloatAxioms.eqb_spec, FloatAxioms.add_spec.
  destruct (Prim2SF x) as [s|s| |s m e], (Prim2SF z) as [s'|s'| |s' m' e'];
    try discriminate; cbn.
  - now destruct s, s'.
  - apply SFeqb_refl_finite.
Qed.

Lemma add_zero_l (x z : float) :
  is_finite x = true -> SFzero (Prim2SF z) = true -> (z + x =? x) = true.
Proof.
  intros Hx%is_finite_SF Hz. rewrite FloatAxioms.eqb_spec, FloatAxioms.add_spec.
  destruct (Prim2SF x) as [s|s| |s m e], (Prim2SF z) as [s'|s'| |s' m' e'];
    try discriminate; cbn.
  - now destruct s, s'.
  - apply SFeqb_refl_finite.
Qed.

End Binary64.

(** ** The primitives on small inputs *)

Example upper_only_letters : upper "sDr az{`@[AZ 9" = "SDR AZ{`@[AZ 9".
Proof. reflexivity. Qed.

Example casings_of_all :
  casings "ALL"
  = ["ALL"; "aLL"; "AlL"; "alL"; "ALl"; "aLl"; "All"; "all"].
Proof. reflexivity. Qed.

Example np_add_broadcasts :
  np_add [1; 2]%float [0.5; 0.25]%float = ([], Return [1.5; 2.25]%float) /\
  np_add [1]%float [0.5; 0.25]%float = ([], Return [1.5; 1.25]%float) /\
  np_add [1; 2; 3]%float [0.5; 0.25]%float
  = ([], Raise (ValueError "operands could not be broadcast together")).
Proof. repeat split. Qed.

Example soil_mixture_values :
  soil_mixture 3 0.5 [0.5; 1]%float [0.25; 0]%float
  = ([EvMix], Return [1.125; 1.5]%float).
Proof. reflexivity. Qed.

Example select_factor_rows :
  select_factor "HDR" [[1]; [2]; [3]; [4]]%float
  = ([], Return (RetSpectrum [4]%float)) /\
  select_factor "DHR" [[1]; [2]]%float = ([], Raise IndexError).
Proof. repeat split. Qed.

(** ** The monad and the shared blocks *)

Lemma bind_ret_l {A B} (a : A) (k : A -> M B) : bind (ret a) k = k a.
Proof. unfold bind, ret. now destruct (k a). Qed.

Lemma bind_nil_return {A B} (a : A) (k : A -> M B) :
  bind ([], Return a) k = k a.
Proof. apply bind_ret_l. Qed.

Lemma bind_return {A B} t (a : A) (k : A -> M B) :
  bind (t, Return a) k = (t ++ (k a).1, (k a).2).
Proof. unfold bind. now destruct (k a). Qed.

Lemma bind_raise {A B} t e (k : A -> M B) : bind (t, Raise e) k = (t, Raise e).
Proof. reflexivity. Qed.

Lemma check_factor_ok factor :
  str_in (upper factor) factors = true ->
  check_factor factor = ([], Return (upper factor)).
Proof. unfold check_factor. now intros ->. Qed.

Lemma check_factor_bad factor :
  str_in (upper factor) factors = false ->
  check_factor factor = ([], Raise (ValueError factor_msg)).
Proof. unfold check_factor. now intros ->. Qed.

(** The blocks meet their descriptions. *)
Lemma component1P g ss1 : component1_spec g ss1 (component1 g ss1).
Proof.
  unfold component1, py_assert, load_global. destruct ss1 as [s|].
  - destruct (Nat.eqb_spec (length s) 2101); now constructor.
  - destruct (g_spectral_libs g) eqn:E; now constructor.
Qed.

Lemma component2P g s1 ss2 : component2_spec g s1 ss2 (component2 g s1 ss2).
Proof.
  unfold component2, py_assert, load_global. destruct ss2 as [s|].
  - destruct (Nat.eqb_spec (length s1) 2101); now constructor.
  - destruct (g_spectral_libs g) eqn:E; now constructor.
Qed.

Lemma np_add_trace (a b : spectrum) : (np_add a b).1 = [].
Proof.
  unfold np_add. destruct (length a =? length b)%nat; [reflexivity|].
  destruct a as [|x [|x' a]]; try reflexivity;
    destruct b as [|y [|y' b]]; reflexivity.
Qed.

Lemma soil_mixture_trace rsoil psoil s1 s2 :
  (soil_mixture rsoil psoil s1 s2).1 = [EvMix].
Proof.
  unfold soil_mixture.
  pose proof (np_add_trace (np_scale psoil s1) (np_scale (1 - psoil) s2)) as H.
  destruct (np_add _ _) as [t [m|e]]; cbn in *; now subst.
Qed.

Lemma soil_mixture_eta rsoil psoil s1 s2 :
  soil_mixture rsoil psoil s1 s2
  = ([EvMix], (soil_mixture rsoil psoil s1 s2).2).
Proof.
  rewrite <- (soil_mixture_trace rsoil psoil s1 s2).
  now destruct (soil_mixture rsoil psoil s1 s2).
Qed.

(** Equal lengths: the mixture is the elementwise expression. *)
Lemma soil_mixture_same_length rsoil psoil s1 s2 :
  length s1 = length s2 ->
  soil_mixture rsoil psoil s1 s2
  = ([EvMix],
     Return (zip_with (fun x1 x2 =>
                         (rsoil * (psoil * x1 + (1 - psoil) * x2))%float)
               s1 s2)).
Proof.
  intros Hlen. unfold soil_mixture, np_add, np_scale.
  rewrite !length_map, Hlen, Nat.eqb_refl. cbn. do 2 f_equal.
  clear Hlen. revert s2. induction s1 as [|x1 s1 IH]; intros [|x2 s2];
    cbn; try reflexivity.
  now rewrite IH.
Qed.

Lemma backgroundP msg rsoil0 rsoil psoil s1 s2 :
  background_spec msg s1 s2 rsoil0 rsoil psoil
    (background msg rsoil0 rsoil psoil s1 s2).
Proof.
  unfold background. destruct rsoil0 as [r|]; [constructor|].
  destruct rsoil as [r|]; [destruct psoil as [p|]|].
  - rewrite soil_mixture_eta. now constructor.
  - constructor. now right.
  - constructor. now left.
Qed.

Lemma select_factor_trace factor rho : (select_factor factor rho).1 = [].
Proof.
  unfold select_factor, row.
  repeat match goal with
         | |- context [if ?b then _ else _] => destruct b
         | |- context [match ?l !! ?k with _ => _ end] => destruct (l !! k)
         end; reflexivity.
Qed.

Lemma casings_upper name factor :
  In name factors -> In factor (casings name) -> upper factor = name.
Proof.
  intros Hn Hf.
  assert (H : forallb (fun nm =>
                forallb (fun f => String.eqb (upper f) nm) (casings nm))
              factors = true) by reflexivity.
  rewrite forallb_forall in H. specialize (H _ Hn).
  rewrite forallb_forall in H. now apply String.eqb_eq, H.
Qed.

Lemma factors_accepted name : In name factors -> str_in name factors = true.
Proof.
  intros H. unfold str_in. apply existsb_exists. exists name.
  split; [assumption | apply String.eqb_refl].
Qed.

(** Available components pass both component blocks. *)
Lemma components_run g ss1 ss2 s1 s2 :
  components (g_spectral_libs g) ss1 ss2 s1 s2 ->
  component1 g ss1 = ([], Return s1) /\
  component2 g s1 ss2 = ([], Return s2).
Proof.
  intros (H1 & Hlen & H2). apply Nat.eqb_eq in Hlen.
  unfold component1, component2, py_assert, load_global.
  destruct ss1 as [x1|], ss2 as [x2|], (g_spectral_libs g) as [libs|];
    cbn in H1, H2; try discriminate;
    injection H1 as <-; injection H2 as <-; now rewrite ?Hlen.
Qed.

(** Soil inputs that resolve pass the component and background blocks. *)
Lemma resolves_soil_run g msg rsoil0 rsoil psoil ss1 ss2 soil :
  resolves_soil (g_spectral_libs g) rsoil0 rsoil psoil ss1 ss2 soil ->
  exists s1 s2 t,
    component1 g ss1 = ([], Return s1) /\
    component2 g s1 ss2 = ([], Return s2) /\
    background msg rsoil0 rsoil psoil s1 s2 = (t, Return soil).
Proof.
  intros (s1 & s2 & Hc & Hsoil).
  destruct (components_run g ss1 ss2 s1 s2 Hc) as [E1 E2].
  exists s1, s2.
  destruct Hsoil as [-> | (-> & r & p & -> & -> & Hmix)].
  - now exists [].
  - exists [EvMix]. repeat split; try assumption.
    cbn [background]. now rewrite soil_mixture_eta, Hmix.
Qed.

(** Case analysis on the shared blocks, in source order. *)
Ltac blocks :=
  repeat (rewrite ?bind_nil_return, ?bind_raise;
          match goal with
          | |- context [component1 ?g ?ss] =>
              destruct (component1P g ss) as [? ?|? ?|? ?|?]
          | |- context [component2 ?g ?s ?ss] =>
              destruct (component2P g s ss) as [? ?|? ?|? ?|?]
          end);
  rewrite ?bind_nil_return, ?bind_raise.

Ltac soil_block :=
  match goal with
  | |- context [background ?m ?a ?b ?c ?s1 ?s2] =>
      destruct (backgroundP m a b c s1 s2) as [? ? ?|? ? [?|?] ?|? ? ?]
  end;
  rewrite ?bind_nil_return, ?bind_raise.

(** Case analysis on the name lookups and model calls that follow. *)
Ltac calls :=
  unfold load_global, call_sail, call_prospect, tell, lift;
  repeat (cbn [bind ret raise app];
          match goal with
          | |- context [match g_nr ?g with _ => _ end] =>
              destruct (g_nr g) eqn:?
          | |- context [match g_kab ?g with _ => _ end] =>
              destruct (g_kab g) eqn:?
          | |- context [match g_kcar ?g with _ => _ end] =>
              destruct (g_kcar g) eqn:?
          | |- context [match g_kbrown ?g with _ => _ end] =>
              destruct (g_kbrown g) eqn:?
          | |- context [match g_kw ?g with _ => _ end] =>
              destruct (g_kw g) eqn:?
          | |- context [match g_km ?g with _ => _ end] =>
              destruct (g_km g) eqn:?
          | |- context [match g_kant ?g with _ => _ end] =>
              destruct (g_kant g) eqn:?
          | |- context [match g_run_prospect ?g ?c with _ => _ end] =>
              destruct (g_run_prospect g c) as [[[? ?] ?]|?] eqn:?
          | |- context [match g_sail ?g with _ => _ end] =>
              destruct (g_sail g) eqn:?
          | |- context [match ?f ?c with _ => _ end] =>
              is_var f; destruct (f c) eqn:?
          | |- context [let '(_, _) := select_factor ?F ?rho in _] =>
              let H := fresh in
              pose proof (select_factor_trace F rho) as H;
              destruct (select_factor F rho) as [? ?]; cbn in H; subst
          end);
  cbn [bind ret raise app].

(** * The two functions *)

Section Driver.

Variable g : Globals.
Variables refl trans : spectrum.
Variables n cab car cbrown cw cm ant alpha : float.
Variables lai lidfa hspot tts tto psi lidfb : float.
Variable prospect_version : string.
Variable typelidf : Z.

Local Abbreviation sail_call :=
  (run_sail g refl trans lai lidfa hspot tts tto psi typelidf lidfb).
Local Abbreviation prosail_call :=
  (run_prosail g n cab car cbrown cw cm lai lidfa hspot tts tto psi ant
     alpha prospect_version typelidf lidfb).

(** The arguments [sail] receives for leaf optics [r], [t] and a
    background spectrum [soil]; [run_sail] passes its own [refl], [trans]. *)
Local Abbreviation canopy_args r t soil :=
  {| sc_refl := r; sc_trans := t; sc_lai := lai;
     sc_lidfa := lidfa; sc_lidfb := lidfb; sc_rsoil0 := soil;
     sc_hspot := hspot; sc_tts := tts; sc_tto := tto;
     sc_psi := psi; sc_typelidf := typelidf |}.
Local Abbreviation canopy_call soil := (canopy_args refl trans soil).

(** The arguments [run_prospect] receives once the seven names are read. *)
Local Abbreviation leaf_call nr kab kcar kbrown kw km kant :=
  {| pc_n := n; pc_cab := cab; pc_car := car; pc_cbrown := cbrown;
     pc_cw := cw; pc_cm := cm; pc_ant := ant;
     pc_prospect_version := prospect_version;
     pc_nr := nr; pc_kab := kab; pc_kcar := kcar;
     pc_kbrown := kbrown; pc_kw := kw; pc_km := km;
     pc_kant := kant; pc_alpha := alpha |}.

(** A selector the check refuses stops both functions at once. *)
Lemma rejected_factor factor rsoil0 rsoil psoil ss1 ss2 :
  str_in (upper factor) factors = false ->
  sail_call factor rsoil0 rsoil psoil ss1 ss2
  = ([], Raise (ValueError factor_msg)) /\
  prosail_call factor rsoil0 rsoil psoil ss1 ss2
  = ([], Raise (ValueError factor_msg)).
Proof.
  intros H. unfold run_sail, run_prosail.
  now rewrite (check_factor_bad _ H).
Qed.

(** Once the selector is accepted, the selector error is never raised. *)
Lemma accepted_factor factor rsoil0 rsoil psoil ss1 ss2 :
  str_in (upper factor) factors = true ->
  sail_call factor rsoil0 rsoil psoil ss1 ss2
  <> ([], Raise (ValueError factor_msg)) /\
  prosail_call factor rsoil0 rsoil psoil ss1 ss2
  <> ([], Raise (ValueError factor_msg)).
Proof.
  intros H. split; unfold run_sail, run_prosail;
    rewrite (check_factor_ok _ H); blocks; try discriminate;
    soil_block; try discriminate; calls; discriminate.
Qed.

(** C2.  A selector whose upper-cased form is not one of SDR, BHR, DHR,
    HDR, ALL makes [run_sail] and [run_prosail] fail with the [ValueError]
    whose message names the five allowed values, with an empty trace: no
    soil is resolved and no model is called.  Every spelling of the five
    names in any letter case passes the check, which yields the name, and
    neither function answers it with that error. *)
Theorem invalid_factor_rejected :
  (forall factor rsoil0 rsoil psoil ss1 ss2,
      str_in (upper factor) factors = false ->
      sail_call factor rsoil0 rsoil psoil ss1 ss2
      = ([], Raise (ValueError factor_msg)) /\
      prosail_call factor rsoil0 rsoil psoil ss1 ss2
      = ([], Raise (ValueError factor_msg))) /\
  (forall name, In name factors -> mentions factor_msg name = true) /\
  (forall name factor rsoil0 rsoil psoil ss1 ss2,
      In name factors -> In factor (casings name) ->
      check_factor factor = ([], Return name) /\
      sail_call factor rsoil0 rsoil psoil ss1 ss2
      <> ([], Raise (ValueError factor_msg)) /\
      prosail_call factor rsoil0 rsoil psoil ss1 ss2
      <> ([], Raise (ValueError factor_msg))).
Proof.
  split; [|split].
  - intros. now apply rejected_factor.
  - intros name H.
    assert (Hall : forallb (mentions factor_msg) factors = true)
      by reflexivity.
    rewrite forallb_forall in Hall. now apply Hall.
  - intros name factor rsoil0 rsoil psoil ss1 ss2 Hn Hf.
    pose proof (casings_upper _ _ Hn Hf) as Hu.
    assert (Hin : str_in (upper factor) factors = true)
      by (rewrite Hu; now apply factors_accepted).
    split; [now rewrite (check_factor_ok _ Hin), Hu|].
    now apply accepted_factor.
Qed.

(** C1, as the code has it.  When [soil_spectrum1] is supplied with a
    length other than 2101, both functions fail with an empty trace, before
    any mixing and before any model is called: with the selector's
    [ValueError] when the selector is refused, otherwise with the bare
    [AssertionError] of the length check. *)
Theorem malformed_soil_spectrum1_rejected :
  forall factor rsoil0 rsoil psoil s1 ss2,
    length s1 <> 2101 ->
    exists e,
      e = (if str_in (upper factor) factors then AssertionError
           else ValueError factor_msg) /\
      sail_call factor rsoil0 rsoil psoil (Some s1) ss2 = ([], Raise e) /\
      prosail_call factor rsoil0 rsoil psoil (Some s1) ss2 = ([], Raise e).
Proof.
  intros factor rsoil0 rsoil psoil s1 ss2 Hlen.
  eexists; split; [reflexivity|].
  destruct (str_in (upper factor) factors) eqn:Hf.
  - unfold run_sail, run_prosail. rewrite (check_factor_ok _ Hf).
    unfold component1, py_assert.
    apply Nat.eqb_neq in Hlen. rewrite Hlen. now split.
  - now apply rejected_factor.
Qed.

(** C3, as the code has it.  When [rsoil0] is not supplied and [rsoil] or
    [psoil] is missing, both functions fail with an empty trace, before any
    mixing and before any model is called.  When the selector is accepted
    and the two component spectra are available, the error is the
    [ValueError] that asks for [rsoil] and [psoil], which is neither the
    [AssertionError] of the length check nor the selector's error. *)
Theorem underspecified_soil_rejected :
  forall factor rsoil psoil ss1 ss2,
    rsoil = None \/ psoil = None ->
    (exists e e',
        sail_call factor None rsoil psoil ss1 ss2 = ([], Raise e) /\
        prosail_call factor None rsoil psoil ss1 ss2 = ([], Raise e')) /\
    (forall s1 s2,
        str_in (upper factor) factors = true ->
        components (g_spectral_libs g) ss1 ss2 s1 s2 ->
        sail_call factor None rsoil psoil ss1 ss2
        = ([], Raise (ValueError sail_soil_msg)) /\
        prosail_call factor None rsoil psoil ss1 ss2
        = ([], Raise (ValueError prosail_soil_msg))) /\
    ValueError sail_soil_msg <> AssertionError /\
    ValueError prosail_soil_msg <> AssertionError /\
    sail_soil_msg <> factor_msg /\ prosail_soil_msg <> factor_msg.
Proof.
  intros factor rsoil psoil ss1 ss2 Hmiss.
  assert (Hmix : forall r p, rsoil = Some r -> psoil = Some p -> False).
  { intros r p -> ->. now destruct Hmiss. }
  split; [|split; [|repeat split; discriminate]].
  - destruct (str_in (upper factor) factors) eqn:Hf.
    + unfold run_sail, run_prosail. rewrite (check_factor_ok _ Hf).
      rewrite !bind_nil_return.
      destruct (component1P g ss1) as [s1 ?|s1 ?|libs ?|?];
        rewrite ?bind_nil_return, ?bind_raise; eauto.
      * destruct (component2P g s1 ss2) as [s2 ?|s2 ?|libs ?|?];
          rewrite ?bind_nil_return, ?bind_raise; eauto;
          unfold background; destruct rsoil as [r|], psoil as [p|];
          solve [eauto | exfalso; eauto].
      * destruct (component2P g (rsoil1 libs) ss2) as [s2 ?|s2 ?|libs' ?|?];
          rewrite ?bind_nil_return, ?bind_raise; eauto;
          unfold background; destruct rsoil as [r|], psoil as [p|];
          solve [eauto | exfalso; eauto].
    + destruct (rejected_factor factor None rsoil psoil ss1 ss2 Hf)
        as [-> ->]. eauto.
  - intros s1 s2 Hf (H1 & Hlen & H2).
    unfold run_sail, run_prosail. rewrite (check_factor_ok _ Hf).
    rewrite !bind_nil_return.
    destruct (components_run g ss1 ss2 s1 s2) as [E1 E2];
      [now repeat split|].
    rewrite E1, !bind_nil_return, E2, !bind_nil_return.
    unfold background; destruct rsoil as [r|], psoil as [p|];
      solve [split; reflexivity | exfalso; eauto].
Qed.

(** C6.  When [rsoil0] is supplied, neither function evaluates the mixture
    and every call made to the canopy model receives [rsoil0] itself,
    whatever [rsoil], [psoil] and the component spectra are; in [run_sail],
    when the selector is accepted, the components are available and [sail]
    is bound, that call is made and is the only step. *)
Theorem precomputed_soil_passed_verbatim :
  forall factor r rsoil psoil ss1 ss2,
    (forall t v,
        sail_call factor (Some r) rsoil psoil ss1 ss2 = (t, v) ->
        ~ In EvMix t /\
        forall c, In (EvSail c) t -> sc_rsoil0 c = r) /\
    (forall t v,
        prosail_call factor (Some r) rsoil psoil ss1 ss2 = (t, v) ->
        ~ In EvMix t /\
        forall c, In (EvSail c) t -> sc_rsoil0 c = r) /\
    (forall s1 s2 sail,
        str_in (upper factor) factors = true ->
        components (g_spectral_libs g) ss1 ss2 s1 s2 ->
        g_sail g = Some sail ->
        exists v,
          sail_call factor (Some r) rsoil psoil ss1 ss2
          = ([EvSail (canopy_call r)], v)).
Proof.
  intros factor r rsoil psoil ss1 ss2. split; [|split].
  - intros t v. unfold run_sail.
    destruct (str_in (upper factor) factors) eqn:Hf;
      [rewrite (check_factor_ok _ Hf) | rewrite (check_factor_bad _ Hf)];
      blocks; cbn [background]; rewrite ?bind_ret_l; calls;
      intros [= <- <-]; (split; [intros Hin | intros c Hin]);
      cbn in Hin; repeat destruct Hin as [Hin|Hin];
      try discriminate; try contradiction;
      now injection Hin as <-.
  - intros t v. unfold run_prosail.
    destruct (str_in (upper factor) factors) eqn:Hf;
      [rewrite (check_factor_ok _ Hf) | rewrite (check_factor_bad _ Hf)];
      blocks; cbn [background]; rewrite ?bind_ret_l; calls;
      intros [= <- <-]; (split; [intros Hin | intros c Hin]);
      cbn in Hin; repeat destruct Hin as [Hin|Hin];
      try discriminate; try contradiction;
      now injection Hin as <-.
  - intros s1 s2 sail Hf Hc Hs. unfold run_sail.
    destruct (components_run g ss1 ss2 s1 s2 Hc) as [E1 E2].
    rewrite (check_factor_ok _ Hf), !bind_nil_return, E1,
      !bind_nil_return, E2, !bind_nil_return.
    cbn [background]. rewrite bind_ret_l.
    unfold load_global, call_sail, tell, lift. rewrite Hs.
    cbn [bind ret app].
    destruct (sail _) as [rho|e]; cbn [bind app]; [|eauto].
    rewrite (surjective_pairing (select_factor _ _)), select_factor_trace.
    eauto.
Qed.

(** C4.  When [rsoil0] is not supplied, both scalars are, and both
    component spectra are available with 2101 entries, the background
    spectrum that reaches the canopy model has 2101 entries and its entry
    at every wavelength index [i] is
    [rsoil * (psoil * soil_spectrum1[i] + (1 - psoil) * soil_spectrum2[i])]:
    every call to [sail] in the trace of [run_sail] and of [run_prosail]
    carries it, and the call is made once the selector is accepted and the
    names the function reads are bound. *)
Theorem mixture_passed_to_canopy :
  forall factor rsoil psoil ss1 ss2 s1 s2,
    components (g_spectral_libs g) ss1 ss2 s1 s2 ->
    length s2 = 2101 ->
    exists soil,
      length soil = 2101 /\
      (forall i, i < 2101 ->
         exists x1 x2,
           s1 !! i = Some x1 /\ s2 !! i = Some x2 /\
           soil !! i
           = Some (rsoil * (psoil * x1 + (1 - psoil) * x2))%float) /\
      (forall t v c,
          sail_call factor None (Some rsoil) (Some psoil) ss1 ss2 = (t, v) ->
          In (EvSail c) t -> sc_rsoil0 c = soil) /\
      (forall t v c,
          prosail_call factor None (Some rsoil) (Some psoil) ss1 ss2
          = (t, v) ->
          In (EvSail c) t -> sc_rsoil0 c = soil) /\
      (forall sail,
          str_in (upper factor) factors = true ->
          g_sail g = Some sail ->
          exists v,
            sail_call factor None (Some rsoil) (Some psoil) ss1 ss2
            = ([EvMix; EvSail (canopy_call soil)], v)) /\
      (forall sail nr kab kcar kbrown kw km kant wv refl' trans',
          str_in (upper factor) factors = true ->
          g_sail g = Some sail ->
          g_nr g = Some nr -> g_kab g = Some kab ->
          g_kcar g = Some kcar -> g_kbrown g = Some kbrown ->
          g_kw g = Some kw -> g_km g = Some km -> g_kant g = Some kant ->
          g_run_prospect g (leaf_call nr kab kcar kbrown kw km kant)
          = Return (wv, refl', trans') ->
          exists v,
            prosail_call factor None (Some rsoil) (Some psoil) ss1 ss2
            = ([EvMix;
                EvProspect (leaf_call nr kab kcar kbrown kw km kant);
                EvSail (canopy_args refl' trans' soil)], v)).
Proof.
  intros factor rsoil psoil ss1 ss2 s1 s2 Hc Hlen2.
  pose proof Hc as (_ & Hlen1 & _).
  destruct (components_run g ss1 ss2 s1 s2 Hc) as [E1 E2].
  pose proof (soil_mixture_same_length rsoil psoil s1 s2) as Emix.
  rewrite Hlen1, Hlen2 in Emix. specialize (Emix eq_refl).
  set (soil := zip_with _ s1 s2) in Emix.
  assert (Hrun : forall msg,
             background msg None (Some rsoil) (Some psoil) s1 s2
             = ([EvMix], Return soil)) by (intros; exact Emix).
  exists soil. split; [|split; [|split; [|split; [|split]]]].
  - subst soil. rewrite length_zip_with. lia.
  - intros i Hi.
    destruct (lookup_lt_is_Some_2 s1 i) as [x1 Hx1]; [lia|].
    destruct (lookup_lt_is_Some_2 s2 i) as [x2 Hx2]; [lia|].
    exists x1, x2. subst soil.
    now rewrite lookup_zip_with, Hx1, Hx2.
  - intros t v c. unfold run_sail.
    destruct (str_in (upper factor) factors) eqn:Hf;
      [rewrite (check_factor_ok _ Hf) | rewrite (check_factor_bad _ Hf)];
      rewrite ?bind_nil_return, ?E1, ?bind_nil_return, ?E2,
        ?bind_nil_return, ?Hrun, ?bind_raise;
      calls; intros [= <- <-] Hin; cbn in Hin;
      repeat destruct Hin as [Hin|Hin];
      try discriminate; try contradiction;
      now injection Hin as <-.
  - intros t v c. unfold run_prosail.
    destruct (str_in (upper factor) factors) eqn:Hf;
      [rewrite (check_factor_ok _ Hf) | rewrite (check_factor_bad _ Hf)];
      rewrite ?bind_nil_return, ?E1, ?bind_nil_return, ?E2,
        ?bind_nil_return, ?Hrun, ?bind_raise;
      calls; intros [= <- <-] Hin; cbn in Hin;
      repeat destruct Hin as [Hin|Hin];
      try discriminate; try contradiction;
      now injection Hin as <-.
  - intros sail Hf Hs. unfold run_sail.
    rewrite (check_factor_ok _ Hf), !bind_nil_return, E1,
      !bind_nil_return, E2, !bind_nil_return, Hrun.
    unfold load_global, call_sail, tell, lift. rewrite Hs.
    cbn [bind ret app].
    destruct (sail _) as [rho|e]; cbn [bind app]; [|eauto].
    rewrite (surjective_pairing (select_factor _ _)), select_factor_trace.
    eauto.
  - intros sail nr kab kcar kbrown kw km kant wv refl' trans'
      Hf Hs Hnr Hkab Hkcar Hkbrown Hkw Hkm Hkant Hleaf.
    unfold run_prosail.
    rewrite (check_factor_ok _ Hf), !bind_nil_return, E1,
      !bind_nil_return, E2, !bind_nil_return, Hrun.
    unfold load_global, call_prospect, call_sail, tell, lift.
    rewrite Hs, Hnr, Hkab, Hkcar, Hkbrown, Hkw, Hkm, Hkant.
    cbn [bind ret app]. rewrite Hleaf. cbn [bind ret app].
    destruct (sail _) as [rho|e]; cbn [bind app]; [|eauto].
    rewrite (surjective_pairing (select_factor _ _)), select_factor_trace.
    eauto.
Qed.

(** What the selector picks out of the four rows. *)
Local Abbreviation selects factor v r0 r1 r2 r3 :=
  ((upper factor = "SDR" -> v = Return (RetSpectrum r0)) /\
   (upper factor = "BHR" -> v = Return (RetSpectrum r1)) /\
   (upper factor = "DHR" -> v = Return (RetSpectrum r2)) /\
   (upper factor = "HDR" -> v = Return (RetSpectrum r3)) /\
   (upper factor = "ALL" -> v = Return (RetAll [r0; r1; r2; r3]))).

Lemma select_factor_selects factor r0 r1 r2 r3 :
  selects factor (select_factor (upper factor) [r0; r1; r2; r3]).2
    r0 r1 r2 r3.
Proof. repeat split; intros ->; reflexivity. Qed.

Lemma selector_names_accepted factor :
  upper factor = "SDR" \/ upper factor = "BHR" \/ upper factor = "DHR" \/
  upper factor = "HDR" \/ upper factor = "ALL" ->
  str_in (upper factor) factors = true.
Proof. intros [-> | [-> | [-> | [-> | ->]]]]; reflexivity. Qed.

(** C7.  In a call whose soil inputs resolve and in which the canopy model
    returns four rows, the value returned is row 0 for SDR, row 1 for BHR,
    row 2 for DHR, row 3 for HDR and the four rows in that order for ALL,
    the selector being read in upper case; in [run_sail], and in
    [run_prosail] once the leaf model has returned. *)
Theorem factor_selects_row :
  forall factor rsoil0 rsoil psoil ss1 ss2 soil sail r0 r1 r2 r3,
    resolves_soil (g_spectral_libs g) rsoil0 rsoil psoil ss1 ss2 soil ->
    g_sail g = Some sail ->
    (sail (canopy_call soil) = Return [r0; r1; r2; r3] ->
     selects factor (sail_call factor rsoil0 rsoil psoil ss1 ss2).2
       r0 r1 r2 r3) /\
    (forall nr kab kcar kbrown kw km kant wv refl' trans',
        g_nr g = Some nr -> g_kab g = Some kab ->
        g_kcar g = Some kcar -> g_kbrown g = Some kbrown ->
        g_kw g = Some kw -> g_km g = Some km -> g_kant g = Some kant ->
        g_run_prospect g (leaf_call nr kab kcar kbrown kw km kant)
        = Return (wv, refl', trans') ->
        sail (canopy_args refl' trans' soil) = Return [r0; r1; r2; r3] ->
        selects factor (prosail_call factor rsoil0 rsoil psoil ss1 ss2).2
          r0 r1 r2 r3).
Proof.
  intros factor rsoil0 rsoil psoil ss1 ss2 soil sail r0 r1 r2 r3 Hsoil Hs.
  split.
  - intros Hrho.
    assert (Hv : str_in (upper factor) factors = true ->
                 (sail_call factor rsoil0 rsoil psoil ss1 ss2).2
                 = (select_factor (upper factor) [r0; r1; r2; r3]).2).
    { intros Hf.
      destruct (resolves_soil_run g sail_soil_msg _ _ _ _ _ _ Hsoil)
        as (s1 & s2 & t & E1 & E2 & E3).
      unfold run_sail.
      rewrite (check_factor_ok _ Hf), !bind_nil_return, E1,
        !bind_nil_return, E2, !bind_nil_return, E3, bind_return.
      unfold load_global, call_sail, tell, lift. rewrite Hs.
      cbn [bind ret app]. rewrite Hrho. cbn [bind].
      now destruct (select_factor _ _). }
    pose proof (select_factor_selects factor r0 r1 r2 r3)
      as (H0 & H1 & H2 & H3 & H4).
    repeat split; intros Hu;
      (rewrite Hv; [auto | apply selector_names_accepted; tauto]).
  - intros nr kab kcar kbrown kw km kant wv refl' trans'
      Hnr Hkab Hkcar Hkbrown Hkw Hkm Hkant Hleaf Hrho.
    assert (Hv : str_in (upper factor) factors = true ->
                 (prosail_call factor rsoil0 rsoil psoil ss1 ss2).2
                 = (select_factor (upper factor) [r0; r1; r2; r3]).2).
    { intros Hf.
      destruct (resolves_soil_run g prosail_soil_msg _ _ _ _ _ _ Hsoil)
        as (s1 & s2 & t & E1 & E2 & E3).
      unfold run_prosail.
      rewrite (check_factor_ok _ Hf), !bind_nil_return, E1,
        !bind_nil_return, E2, !bind_nil_return, E3, bind_return.
      unfold load_global, call_prospect, call_sail, tell, lift.
      rewrite Hs, Hnr, Hkab, Hkcar, Hkbrown, Hkw, Hkm, Hkant.
      cbn [bind ret app]. rewrite Hleaf. cbn [bind ret app].
      rewrite Hrho. cbn [bind].
      now destruct (select_factor _ _). }
    pose proof (select_factor_selects factor r0 r1 r2 r3)
      as (H0 & H1 & H2 & H3 & H4).
    repeat split; intros Hu;
      (rewrite Hv; [auto | apply selector_names_accepted; tauto]).
Qed.

(** [run_sail] once the checks have passed and [sail] is bound. *)
Lemma run_sail_steps factor rsoil0 rsoil psoil ss1 ss2 s1 s2 t soil sail :
  str_in (upper factor) factors = true ->
  component1 g ss1 = ([], Return s1) ->
  component2 g s1 ss2 = ([], Return s2) ->
  background sail_soil_msg rsoil0 rsoil psoil s1 s2 = (t, Return soil) ->
  g_sail g = Some sail ->
  sail_call factor rsoil0 rsoil psoil ss1 ss2
  = (t ++ [EvSail (canopy_call soil)],
     match sail (canopy_call soil) with
     | Return rho => (select_factor (upper factor) rho).2
     | Raise e => Raise e
     end).
Proof.
  intros Hf E1 E2 E3 Hs. unfold run_sail.
  rewrite (check_factor_ok _ Hf), !bind_nil_return, E1,
    !bind_nil_return, E2, !bind_nil_return, E3, bind_return.
  unfold load_global, call_sail, tell, lift. rewrite Hs.
  cbn [bind ret app fst snd].
  destruct (sail _) as [rho|e]; [|reflexivity].
  rewrite (surjective_pairing (select_factor _ _)), select_factor_trace.
  reflexivity.
Qed.

(** C8.  With the same valid inputs, and a canopy model that returns four
    rows of 2101 entries, [run_sail] with factor ALL returns those four
    rows, and with SDR, BHR, DHR, HDR it returns row 0, 1, 2, 3 of the
    very same array; the canopy model being a function of its arguments. *)
Theorem all_rows_match_single_factors :
  forall rsoil0 rsoil psoil ss1 ss2 soil sail rho,
    resolves_soil (g_spectral_libs g) rsoil0 rsoil psoil ss1 ss2 soil ->
    g_sail g = Some sail ->
    sail (canopy_call soil) = Return rho ->
    length rho = 4 ->
    Forall (fun r => length r = 2101) rho ->
    exists t rows,
      sail_call "ALL" rsoil0 rsoil psoil ss1 ss2
      = (t, Return (RetAll rows)) /\
      length rows = 4 /\
      Forall (fun r => length r = 2101) rows /\
      forall k name,
        ["SDR"; "BHR"; "DHR"; "HDR"] !! k = Some name ->
        exists r,
          rows !! k = Some r /\
          sail_call name rsoil0 rsoil psoil ss1 ss2
          = (t, Return (RetSpectrum r)).
Proof.
  intros rsoil0 rsoil psoil ss1 ss2 soil sail rho Hsoil Hs Hrho Hlen Hw.
  destruct (resolves_soil_run g sail_soil_msg _ _ _ _ _ _ Hsoil)
    as (s1 & s2 & t & E1 & E2 & E3).
  assert (Hrun : forall factor,
             str_in (upper factor) factors = true ->
             sail_call factor rsoil0 rsoil psoil ss1 ss2
             = (t ++ [EvSail (canopy_call soil)],
                (select_factor (upper factor) rho).2)).
  { intros factor Hf.
    rewrite (run_sail_steps factor _ _ _ _ _ s1 s2 t soil sail) by assumption.
    now rewrite Hrho. }
  destruct rho as [|r0 [|r1 [|r2 [|r3 [|r4 rho]]]]]; try discriminate.
  exists (t ++ [EvSail (canopy_call soil)]), [r0; r1; r2; r3].
  split; [now rewrite Hrun | split; [reflexivity | split; [assumption|]]].
  intros k name Hk.
  destruct k as [|[|[|[|k]]]]; cbn in Hk; try discriminate;
    injection Hk as <-; eexists; (split; [reflexivity|]);
    now rewrite Hrun.
Qed.

(** The two functions in the file's own global environment. *)
Local Abbreviation module_sail run_prospect :=
  (run_sail (module_globals run_prospect) refl trans lai lidfa hspot tts
     tto psi typelidf lidfb).
Local Abbreviation module_prosail run_prospect :=
  (run_prosail (module_globals run_prospect) n cab car cbrown cw cm lai
     lidfa hspot tts tto psi ant alpha prospect_version typelidf lidfb).

(** C9.  With the names the file binds, [run_prosail] never returns: every
    call ends in an exception before either model is called, and a call
    that passes the selector check and resolves its soil inputs ends in
    the [NameError] for [nr], the first of the seven names [nr], [kab],
    [kcar], [kbrown], [kw], [km], [kant] read for the leaf model, none of
    which is bound. *)
Theorem run_prosail_never_returns :
  forall run_prospect factor rsoil0 rsoil psoil ss1 ss2,
    (exists t e,
        module_prosail run_prospect factor rsoil0 rsoil psoil ss1 ss2
        = (t, Raise e) /\
        forall ev, In ev t -> is_physics ev = false) /\
    (forall soil,
        str_in (upper factor) factors = true ->
        resolves_soil None rsoil0 rsoil psoil ss1 ss2 soil ->
        (module_prosail run_prospect factor rsoil0 rsoil psoil ss1 ss2).2
        = Raise (NameError "nr")) /\
    let mg := module_globals run_prospect in
    g_nr mg = None /\ g_kab mg = None /\ g_kcar mg = None /\
    g_kbrown mg = None /\ g_kw mg = None /\ g_km mg = None /\
    g_kant mg = None.
Proof.
  intros run_prospect factor rsoil0 rsoil psoil ss1 ss2.
  split; [|split; [|now cbn]].
  - unfold run_prosail.
    destruct (str_in (upper factor) factors) eqn:Hf;
      [rewrite (check_factor_ok _ Hf) | rewrite (check_factor_bad _ Hf)];
      blocks; try soil_block; rewrite ?bind_return; cbn;
      do 2 eexists; (split; [reflexivity|]);
      intros ev Hin; cbn in Hin; repeat destruct Hin as [Hin|Hin];
      try contradiction; now subst.
  - intros soil Hf Hsoil.
    destruct (resolves_soil_run (module_globals run_prospect)
                prosail_soil_msg _ _ _ _ _ _ Hsoil)
      as (s1 & s2 & t & E1 & E2 & E3).
    unfold run_prosail.
    rewrite (check_factor_ok _ Hf), !bind_nil_return, E1,
      !bind_nil_return, E2, !bind_nil_return, E3, bind_return.
    reflexivity.
Qed.

(** [sail] is not bound by the file either: in its own environment
    [run_sail] gets no further than reading that name. *)
Lemma run_sail_unbound_sail :
  forall run_prospect factor rsoil0 rsoil psoil ss1 ss2,
    exists t e,
      module_sail run_prospect factor rsoil0 rsoil psoil ss1 ss2
      = (t, Raise e) /\
      forall ev, In ev t -> is_physics ev = false.
Proof.
  intros run_prospect factor rsoil0 rsoil psoil ss1 ss2.
  unfold run_sail.
  destruct (str_in (upper factor) factors) eqn:Hf;
    [rewrite (check_factor_ok _ Hf) | rewrite (check_factor_bad _ Hf)];
    blocks; try soil_block; rewrite ?bind_return; cbn;
    do 2 eexists; (split; [reflexivity|]);
    intros ev Hin; cbn in Hin; repeat destruct Hin as [Hin|Hin];
    try contradiction; now subst.
Qed.

(** C10.  With the names the file binds, a call of [run_sail] or
    [run_prosail] that omits [soil_spectrum1] or [soil_spectrum2] always
    ends in an exception with an empty trace, and never reads a default
    spectrum: when the selector is accepted and a supplied [soil_spectrum1]
    has 2101 entries, the exception is the [NameError] for
    [spectral_libs]. *)
Theorem default_spectra_unreachable :
  forall run_prospect factor rsoil0 rsoil psoil ss1 ss2,
    ss1 = None \/ ss2 = None ->
    g_spectral_libs (module_globals run_prospect) = None /\
    exists e,
      module_sail run_prospect factor rsoil0 rsoil psoil ss1 ss2
      = ([], Raise e) /\
      module_prosail run_prospect factor rsoil0 rsoil psoil ss1 ss2
      = ([], Raise e) /\
      (str_in (upper factor) factors = true ->
       (forall s, ss1 = Some s -> length s = 2101) ->
       e = NameError "spectral_libs").
Proof.
  intros run_prospect factor rsoil0 rsoil psoil ss1 ss2 Hnone.
  split; [reflexivity|].
  unfold run_sail, run_prosail.
  destruct (str_in (upper factor) factors) eqn:Hf;
    [rewrite (check_factor_ok _ Hf) | rewrite (check_factor_bad _ Hf)];
    [|eexists; repeat split; discriminate].
  rewrite !bind_nil_return.
  destruct ss1 as [s1|]; [|eexists; repeat split].
  destruct Hnone as [Hnone | ->]; [discriminate|].
  unfold component1, py_assert.
  destruct (Nat.eqb_spec (length s1) 2101) as [Hlen|Hlen].
  - eexists; repeat split.
  - eexists; repeat split. intros _ H. now specialize (H _ eq_refl).
Qed.

End Driver.

(** * The mixture at the boundary moistures *)

Lemma zip_with_entry (f : float -> float -> float) (s1 s2 : list float)
    i x1 x2 :
  s1 !! i = Some x1 -> s2 !! i = Some x2 ->
  zip_with f s1 s2 !! i = Some (f x1 x2).
Proof. intros H1 H2. now rewrite lookup_zip_with, H1, H2. Qed.

Lemma mixture_entry_moist (x1 x2 : float) :
  is_finite x1 = true -> is_finite x2 = true ->
  (1 * (1 * x1 + (1 - 1) * x2) =? x1)%float = true.
Proof.
  intros H1 H2. change (1 - 1)%float with 0%float.
  rewrite !Binary64.mul_one_l.
  now apply Binary64.add_zero_r, Binary64.mul_zero_l.
Qed.

Lemma mixture_entry_dry (x1 x2 : float) :
  is_finite x1 = true -> is_finite x2 = true ->
  (1 * (0 * x1 + (1 - 0) * x2) =? x2)%float = true.
Proof.
  intros H1 H2. change (1 - 0)%float with 1%float.
  rewrite !Binary64.mul_one_l.
  now apply Binary64.add_zero_l, Binary64.mul_zero_l.
Qed.

(** C5, as the code has it.  For two spectra of 2101 finite entries (no
    infinity, no NaN), the mixture with brightness 1.0 and moisture 1.0 has
    2101 entries and each compares equal ([==]) to the same entry of the
    first spectrum; with moisture 0.0 each compares equal to the same entry
    of the second. *)
Theorem mixture_boundary_moisture :
  forall s1 s2 : spectrum,
    length s1 = 2101 -> length s2 = 2101 ->
    Forall (fun x => is_finite x = true) s1 ->
    Forall (fun x => is_finite x = true) s2 ->
    (exists m,
        soil_mixture 1 1 s1 s2 = ([EvMix], Return m) /\
        length m = 2101 /\
        forall i, i < 2101 ->
          exists x y, s1 !! i = Some x /\ m !! i = Some y /\
                      (y =? x)%float = true) /\
    (exists m,
        soil_mixture 1 0 s1 s2 = ([EvMix], Return m) /\
        length m = 2101 /\
        forall i, i < 2101 ->
          exists x y, s2 !! i = Some x /\ m !! i = Some y /\
                      (y =? x)%float = true).
Proof.
  intros s1 s2 Hlen1 Hlen2 Hfin1 Hfin2.
  assert (Hlen : length s1 = length s2) by congruence.
  assert (Hentry : forall i, i < 2101 ->
            exists x1 x2, s1 !! i = Some x1 /\ s2 !! i = Some x2 /\
                          is_finite x1 = true /\ is_finite x2 = true).
  { intros i Hi.
    destruct (lookup_lt_is_Some_2 s1 i) as [x1 Hx1]; [lia|].
    destruct (lookup_lt_is_Some_2 s2 i) as [x2 Hx2]; [lia|].
    exists x1, x2. repeat split; try assumption.
    - exact (Forall_lookup_1 _ _ _ _ Hfin1 Hx1).
    - exact (Forall_lookup_1 _ _ _ _ Hfin2 Hx2). }
  split.
  - rewrite (soil_mixture_same_length 1 1 s1 s2 Hlen).
    eexists. split; [reflexivity|]. split; [rewrite length_zip_with; lia|].
    intros i Hi. destruct (Hentry i Hi) as (x1 & x2 & Hx1 & Hx2 & F1 & F2).
    exists x1. eexists. split; [assumption|].
    split; [exact (zip_with_entry _ _ _ _ _ _ Hx1 Hx2)|].
    now apply mixture_entry_moist.
  - rewrite (soil_mixture_same_length 1 0 s1 s2 Hlen).
    eexists. split; [reflexivity|]. split; [rewrite length_zip_with; lia|].
    intros i Hi. destruct (Hentry i Hi) as (x1 & x2 & Hx1 & Hx2 & F1 & F2).
    exists x2. eexists. split; [assumption|].
    split; [exact (zip_with_entry _ _ _ _ _ _ Hx1 Hx2)|].
    now apply mixture_entry_dry.
Qed.

(** C5 fails on a spectrum with an infinite entry: [0.0 * inf] is NaN, so the
    mixture with brightness 1.0 and moisture 1.0 of a constant 0.5 spectrum
    and an all-infinite one is NaN everywhere and equals the first spectrum
    nowhere. *)
Lemma mixture_nan_on_infinite_entry :
  length (flat 0.5) = 2101 /\ length (flat infinity) = 2101 /\
  soil_mixture 1 1 (flat 0.5) (flat infinity) = ([EvMix], Return (flat nan)) /\
  flat 0.5 !! 0 = Some 0.5%float /\
  flat nan !! 0 = Some nan /\
  (nan =? 0.5)%float = false /\
  ~ (exists m,
        soil_mixture 1 1 (flat 0.5) (flat infinity) = ([EvMix], Return m) /\
        forall i, i < 2101 ->
          exists x y, flat 0.5 !! i = Some x /\ m !! i = Some y /\
                      (y =? x)%float = true).
Proof.
  assert (E : soil_mixture 1 1 (flat 0.5) (flat infinity)
              = ([EvMix], Return (flat nan)))
    by (vm_compute; reflexivity).
  split; [vm_compute; reflexivity|]. split; [vm_compute; reflexivity|].
  split; [exact E|]. split; [reflexivity|]. split; [reflexivity|].
  split; [reflexivity|].
  intros (m & Hm & Hall). rewrite E in Hm. injection Hm as <-.
  destruct (Hall 0) as (x & y & Hx & Hy & Heq); [lia|].
  cbn in Hx, Hy. injection Hx as <-. injection Hy as <-.
  discriminate Heq.
Qed.

(** * Concrete calls *)

Lemma length_flat x : length (flat x) = 2101.
Proof. apply length_replicate. Qed.

Lemma length_short x : length (short x) <> 2101.
Proof. unfold short. rewrite length_replicate. lia. Qed.

Lemma demo_components :
  components (g_spectral_libs demo_globals) (Some (flat 0.125)) None
    (flat 0.125) (flat 0.25).
Proof. split; [reflexivity | split; [apply length_flat | reflexivity]]. Qed.

Lemma demo_resolves_precomputed libs soil :
  resolves_soil libs (Some soil) None None
    (Some (flat 0.5)) (Some (flat 0.25)) soil.
Proof.
  exists (flat 0.5), (flat 0.25). split; [|now left].
  split; [reflexivity | split; [apply length_flat | reflexivity]].
Qed.

(** C1 fails for [rsoil0]: a precomputed soil spectrum of 2100 entries is
    not checked.  Where [sail] is bound the canopy model is called with it
    and the call returns; in the file's own environment the call gets as far
    as reading [sail], and the error is about that name. *)
Lemma rsoil0_length_unchecked :
  length (short 0.5) <> 2101 /\
  demo_run_sail demo_globals "SDR" (Some (short 0.5)) None None
    (Some (flat 0.5)) (Some (flat 0.25))
  = ([EvSail (demo_canopy_call (short 0.5))],
     Return (RetSpectrum (short 0.5))) /\
  demo_run_sail (module_globals demo_prospect) "SDR" (Some (short 0.5))
    None None (Some (flat 0.5)) (Some (flat 0.25))
  = ([], Raise (NameError "sail")) /\
  ~ (exists e,
        demo_run_sail demo_globals "SDR" (Some (short 0.5)) None None
          (Some (flat 0.5)) (Some (flat 0.25))
        = ([], Raise e)).
Proof.
  split; [apply length_short|].
  assert (E : demo_run_sail demo_globals "SDR" (Some (short 0.5)) None None
                (Some (flat 0.5)) (Some (flat 0.25))
              = ([EvSail (demo_canopy_call (short 0.5))],
                 Return (RetSpectrum (short 0.5))))
    by (vm_compute; reflexivity).
  split; [exact E|]. split; [vm_compute; reflexivity|].
  intros [e He]. rewrite E in He. discriminate He.
Qed.

(** The assertion of the second component block reads [soil_spectrum1]: a
    second component of 2100 entries passes it, and is only refused by the
    array addition when the mixture is evaluated. *)
Example soil_spectrum2_length_unchecked :
  demo_run_sail demo_globals "SDR" (Some (flat 0.125)) None None
    (Some (flat 0.5)) (Some (short 0.25))
  = ([EvSail (demo_canopy_call (flat 0.125))],
     Return (RetSpectrum (flat 0.125))) /\
  demo_run_sail demo_globals "SDR" None (Some 1%float) (Some 0.5%float)
    (Some (flat 0.5)) (Some (short 0.25))
  = ([EvMix],
     Raise (ValueError "operands could not be broadcast together")).
Proof. vm_compute. split; reflexivity. Qed.

(** C3 fails when the first component is malformed as well: the length check
    comes first and its [AssertionError] is what the call raises, in any
    environment. *)
Lemma malformed_spectrum_precedes_missing_scalars :
  length (short 0.5) = 2100 /\
  demo_run_sail demo_globals "SDR" None None None (Some (short 0.5)) None
  = ([], Raise AssertionError) /\
  demo_run_prosail demo_globals "SDR" None None None (Some (short 0.5)) None
  = ([], Raise AssertionError) /\
  demo_run_sail (module_globals demo_prospect) "SDR" None None None
    (Some (short 0.5)) None
  = ([], Raise AssertionError) /\
  ~ (exists e,
        demo_run_sail demo_globals "SDR" None None None (Some (short 0.5))
          None
        = ([], Raise e) /\
        e <> AssertionError).
Proof.
  assert (E : demo_run_sail demo_globals "SDR" None None None
                (Some (short 0.5)) None
              = ([], Raise AssertionError))
    by (vm_compute; reflexivity).
  split; [vm_compute; reflexivity|]. split; [exact E|].
  split; [vm_compute; reflexivity|]. split; [vm_compute; reflexivity|].
  intros (e & He & Hne). rewrite E in He. injection He as <-. now apply Hne.
Qed.

(** C2 at work: [brf] is refused, [aLl] is a spelling of ALL and passes. *)
Lemma invalid_factor_rejected_witness :
  str_in (upper "brf") factors = false /\
  demo_run_sail demo_globals "brf" None None None None None
  = ([], Raise (ValueError factor_msg)) /\
  In "ALL" factors /\ In "aLl" (casings "ALL") /\
  demo_run_sail demo_globals "aLl" None None None None None
  <> ([], Raise (ValueError factor_msg)).
Proof.
  assert (H1 : str_in (upper "brf") factors = false) by reflexivity.
  assert (H2 : In "ALL" factors) by (cbn; tauto).
  assert (H3 : In "aLl" (casings "ALL")) by (cbn; tauto).
  destruct (invalid_factor_rejected demo_globals (flat 0.5) (flat 0.25)
              1.5 40 8 0 0.5 0.5 0 40 3 50 0.5 30 0 0 0 "5" 2)
    as (A & _ & C).
  exact (conj H1
           (conj (proj1 (A "brf" None None None None None H1))
              (conj H2
                 (conj H3
                    (proj1 (proj2 (C "ALL" "aLl" None None None None None
                                     H2 H3))))))).
Defined.

(** C1 at work: a first component of 2100 entries, accepted selector. *)
Lemma malformed_soil_spectrum1_rejected_witness :
  length (short 0.5) <> 2101 /\
  demo_run_sail demo_globals "SDR" None (Some 1%float) (Some 0.5%float)
    (Some (short 0.5)) None
  = ([], Raise AssertionError) /\
  demo_run_prosail demo_globals "SDR" None (Some 1%float) (Some 0.5%float)
    (Some (short 0.5)) None
  = ([], Raise AssertionError).
Proof.
  pose proof (length_short 0.5) as H.
  split; [exact H|].
  destruct (malformed_soil_spectrum1_rejected demo_globals (flat 0.5)
              (flat 0.25) 1.5 40 8 0 0.5 0.5 0 40 3 50 0.5 30 0 0 0 "5" 2
              "SDR" None (Some 1%float) (Some 0.5%float) (short 0.5) None H)
    as (e & -> & Hs & Hp).
  exact (conj Hs Hp).
Defined.

(** C3 at work: [rsoil] missing, components available, selector [sdr]. *)
Lemma underspecified_soil_rejected_witness :
  (@None float = None \/ Some 0.5%float = None) /\
  components (g_spectral_libs demo_globals) (Some (flat 0.125)) None
    (flat 0.125) (flat 0.25) /\
  demo_run_sail demo_globals "sdr" None None (Some 0.5%float)
    (Some (flat 0.125)) None
  = ([], Raise (ValueError sail_soil_msg)) /\
  demo_run_prosail demo_globals "sdr" None None (Some 0.5%float)
    (Some (flat 0.125)) None
  = ([], Raise (ValueError prosail_soil_msg)).
Proof.
  assert (H : @None float = None \/ Some 0.5%float = None) by now left.
  split; [exact H|]. split; [exact demo_components|].
  destruct (underspecified_soil_rejected demo_globals (flat 0.5)
              (flat 0.25) 1.5 40 8 0 0.5 0.5 0 40 3 50 0.5 30 0 0 0 "5" 2
              "sdr" None (Some 0.5%float) (Some (flat 0.125)) None H)
    as (_ & B & _).
  exact (B (flat 0.125) (flat 0.25) eq_refl demo_components).
Defined.

(** C4 at work: brightness 3, moisture 0.5, second component by default. *)
Lemma mixture_passed_to_canopy_witness :
  components (g_spectral_libs demo_globals) (Some (flat 0.125)) None
    (flat 0.125) (flat 0.25) /\
  length (flat 0.25) = 2101 /\
  exists soil,
    length soil = 2101 /\
    (exists x1 x2,
        flat 0.125 !! 7 = Some x1 /\ flat 0.25 !! 7 = Some x2 /\
        soil !! 7 = Some (3 * (0.5 * x1 + (1 - 0.5) * x2))%float) /\
    exists v,
      demo_run_sail demo_globals "SDR" None (Some 3%float) (Some 0.5%float)
        (Some (flat 0.125)) None
      = ([EvMix; EvSail (demo_canopy_call soil)], v).
Proof.
  split; [exact demo_components|]. split; [exact (length_flat 0.25)|].
  destruct (mixture_passed_to_canopy demo_globals (flat 0.5) (flat 0.25)
              1.5 40 8 0 0.5 0.5 0 40 3 50 0.5 30 0 0 0 "5" 2
              "SDR" 3%float 0.5%float (Some (flat 0.125)) None
              (flat 0.125) (flat 0.25) demo_components (length_flat 0.25))
    as (soil & Hlen & Hentry & _ & _ & Hrun & _).
  exists soil. split; [exact Hlen|]. split.
  - apply Hentry. lia.
  - exact (Hrun demo_sail eq_refl eq_refl).
Defined.

(** C5 at work: constant spectra 0.5 and 0.25. *)
Lemma mixture_boundary_moisture_witness :
  length (flat 0.5) = 2101 /\ length (flat 0.25) = 2101 /\
  Forall (fun x => is_finite x = true) (flat 0.5) /\
  Forall (fun x => is_finite x = true) (flat 0.25) /\
  (exists m,
      soil_mixture 1 1 (flat 0.5) (flat 0.25) = ([EvMix], Return m) /\
      length m = 2101 /\
      forall i, i < 2101 ->
        exists x y, flat 0.5 !! i = Some x /\ m !! i = Some y /\
                    (y =? x)%float = true) /\
  (exists m,
      soil_mixture 1 0 (flat 0.5) (flat 0.25) = ([EvMix], Return m) /\
      length m = 2101 /\
      forall i, i < 2101 ->
        exists x y, flat 0.25 !! i = Some x /\ m !! i = Some y /\
                    (y =? x)%float = true).
Proof.
  assert (F1 : Forall (fun x => is_finite x = true) (flat 0.5))
    by (apply Forall_replicate; reflexivity).
  assert (F2 : Forall (fun x => is_finite x = true) (flat 0.25))
    by (apply Forall_replicate; reflexivity).
  exact (conj (length_flat 0.5)
           (conj (length_flat 0.25)
              (conj F1
                 (conj F2
                    (mixture_boundary_moisture (flat 0.5) (flat 0.25)
                       (length_flat 0.5) (length_flat 0.25) F1 F2))))).
Defined.

(** C6 at work: the precomputed spectrum goes to [sail] as it is, whatever
    its length, with [rsoil] set and [psoil] missing. *)
Lemma precomputed_soil_passed_verbatim_witness :
  str_in (upper "bhr") factors = true /\
  components (g_spectral_libs demo_globals) (Some (flat 0.125)) None
    (flat 0.125) (flat 0.25) /\
  g_sail demo_globals = Some demo_sail /\
  exists v,
    demo_run_sail demo_globals "bhr" (Some (short 0.5)) (Some 3%float) None
      (Some (flat 0.125)) None
    = ([EvSail (demo_canopy_call (short 0.5))], v).
Proof.
  split; [reflexivity|]. split; [exact demo_components|].
  split; [reflexivity|].
  destruct (precomputed_soil_passed_verbatim demo_globals (flat 0.5)
              (flat 0.25) 1.5 40 8 0 0.5 0.5 0 40 3 50 0.5 30 0 0 0 "5" 2
              "bhr" (short 0.5) (Some 3%float) None (Some (flat 0.125)) None)
    as (_ & _ & Hrun).
  exact (Hrun (flat 0.125) (flat 0.25) demo_sail eq_refl demo_components
           eq_refl).
Defined.

(** C7 at work: [dhr] returns row 2. *)
Lemma factor_selects_row_witness :
  resolves_soil (g_spectral_libs demo_globals) (Some (flat 0.125)) None None
    (Some (flat 0.5)) (Some (flat 0.25)) (flat 0.125) /\
  g_sail demo_globals = Some demo_sail /\
  demo_sail (demo_canopy_call (flat 0.125))
  = Return [flat 0.125; flat 0.25; flat 0.375; flat 0.5] /\
  upper "dhr" = "DHR" /\
  (demo_run_sail demo_globals "dhr" (Some (flat 0.125)) None None
     (Some (flat 0.5)) (Some (flat 0.25))).2
  = Return (RetSpectrum (flat 0.375)).
Proof.
  pose proof (demo_resolves_precomputed (g_spectral_libs demo_globals)
                (flat 0.125)) as Hsoil.
  assert (Hrho : demo_sail (demo_canopy_call (flat 0.125))
                 = Return [flat 0.125; flat 0.25; flat 0.375; flat 0.5])
    by (vm_compute; reflexivity).
  split; [exact Hsoil|]. split; [reflexivity|]. split; [exact Hrho|].
  split; [reflexivity|].
  destruct (factor_selects_row demo_globals (flat 0.5) (flat 0.25)
              1.5 40 8 0 0.5 0.5 0 40 3 50 0.5 30 0 0 0 "5" 2
              "dhr" (Some (flat 0.125)) None None
              (Some (flat 0.5)) (Some (flat 0.25)) (flat 0.125) demo_sail
              (flat 0.125) (flat 0.25) (flat 0.375) (flat 0.5)
              Hsoil eq_refl)
    as (Hsail & _).
  exact (proj1 (proj2 (proj2 (Hsail Hrho))) eq_refl).
Defined.

(** C8 at work: row 1 of the ALL result is the BHR result. *)
Lemma all_rows_match_single_factors_witness :
  resolves_soil (g_spectral_libs demo_globals) (Some (flat 0.125)) None None
    (Some (flat 0.5)) (Some (flat 0.25)) (flat 0.125) /\
  g_sail demo_globals = Some demo_sail /\
  exists t rows,
    demo_run_sail demo_globals "ALL" (Some (flat 0.125)) None None
      (Some (flat 0.5)) (Some (flat 0.25))
    = (t, Return (RetAll rows)) /\
    length rows = 4 /\
    exists r,
      rows !! 1 = Some r /\
      demo_run_sail demo_globals "BHR" (Some (flat 0.125)) None None
        (Some (flat 0.5)) (Some (flat 0.25))
      = (t, Return (RetSpectrum r)).
Proof.
  pose proof (demo_resolves_precomputed (g_spectral_libs demo_globals)
                (flat 0.125)) as Hsoil.
  split; [exact Hsoil|]. split; [reflexivity|].
  assert (Hrho : demo_sail (demo_canopy_call (flat 0.125))
                 = Return [flat 0.125; flat 0.25; flat 0.375; flat 0.5])
    by (vm_compute; reflexivity).
  assert (Hw : Forall (fun r : spectrum => length r = 2101)
                 [flat 0.125; flat 0.25; flat 0.375; flat 0.5])
    by (repeat constructor; apply length_flat).
  destruct (all_rows_match_single_factors demo_globals (flat 0.5)
              (flat 0.25) 3 50 0.5 30 0 0 0 2
              (Some (flat 0.125)) None None
              (Some (flat 0.5)) (Some (flat 0.25)) (flat 0.125) demo_sail
              [flat 0.125; flat 0.25; flat 0.375; flat 0.5]
              Hsoil eq_refl Hrho eq_refl Hw)
    as (t & rows & Hall & Hlen & _ & Hrow).
  exists t, rows. split; [exact Hall|]. split; [exact Hlen|].
  exact (Hrow 1 "BHR" eq_refl).
Defined.

(** C9 at work: a call with every soil input in order stops at [nr]. *)
Lemma run_prosail_never_returns_witness :
  str_in (upper "SDR") factors = true /\
  resolves_soil None (Some (flat 0.125)) None None
    (Some (flat 0.5)) (Some (flat 0.25)) (flat 0.125) /\
  (demo_run_prosail (module_globals demo_prospect) "SDR"
     (Some (flat 0.125)) None None (Some (flat 0.5)) (Some (flat 0.25))).2
  = Raise (NameError "nr").
Proof.
  pose proof (demo_resolves_precomputed None (flat 0.125)) as Hsoil.
  split; [reflexivity|]. split; [exact Hsoil|].
  destruct (run_prosail_never_returns 1.5 40 8 0 0.5 0.5 0 40 3 50 0.5 30
              0 0 0 "5" 2 demo_prospect "SDR" (Some (flat 0.125)) None None
              (Some (flat 0.5)) (Some (flat 0.25)))
    as (_ & Hnr & _).
  exact (Hnr (flat 0.125) eq_refl Hsoil).
Defined.

(** C10 at work: [soil_spectrum2] omitted. *)
Lemma default_spectra_unreachable_witness :
  (Some (flat 0.5) = None \/ @None spectrum = None) /\
  exists e,
    demo_run_sail (module_globals demo_prospect) "SDR" None (Some 1%float)
      (Some 0.5%float) (Some (flat 0.5)) None
    = ([], Raise e) /\
    e = NameError "spectral_libs".
Proof.
  assert (H : Some (flat 0.5) = None \/ @None spectrum = None) by now right.
  split; [exact H|].
  destruct (default_spectra_unreachable (flat 0.5) (flat 0.25)
              1.5 40 8 0 0.5 0.5 0 40 3 50 0.5 30 0 0 0 "5" 2
              demo_prospect "SDR" None (Some 1%float) (Some 0.5%float)
              (Some (flat 0.5)) None H)
    as (_ & e & Hs & _ & He).
  exists e. split; [exact Hs|].
  apply He; [reflexivity|]. intros s [= <-]. apply length_flat.
Defined.


(** * Further properties of the two functions *)

(** ** The selector is read in upper case only *)

Lemma upper_ascii_idem c : upper_ascii (upper_ascii c) = upper_ascii c.
Proof. destruct c as [[] [] [] [] [] [] [] []]; reflexivity. Qed.

Lemma upper_idem s : upper (upper s) = upper s.
Proof.
  induction s as [|c s IH]; [reflexivity|].
  cbn [upper]. now rewrite upper_ascii_idem, IH.
Qed.

Lemma check_factor_upper f f' :
  upper f = upper f' -> check_factor f = check_factor f'.
Proof. unfold check_factor. now intros ->. Qed.

(** ** What a block that returns has checked *)

Lemma component1_return g ss1 t s1 :
  component1 g ss1 = (t, Return s1) ->
  t = [] /\
  soil_component (g_spectral_libs g) rsoil1 ss1 = Some s1 /\
  (forall s, ss1 = Some s -> length s = 2101).
Proof.
  destruct (component1P g ss1) as [s Hs|s Hs|libs Hl|Hl];
    intros [= <- <-] || intros [=]; repeat split.
  - now intros ? [= <-].
  - cbn. now rewrite Hl.
  - intros ? [=].
Qed.

Lemma component2_return g s1 ss2 t s2 :
  component2 g s1 ss2 = (t, Return s2) ->
  t = [] /\
  soil_component (g_spectral_libs g) rsoil2 ss2 = Some s2 /\
  (forall s, ss2 = Some s -> length s1 = 2101).
Proof.
  destruct (component2P g s1 ss2) as [s Hs|s Hs|libs Hl|Hl];
    intros [= <- <-] || intros [=]; repeat split.
  - now intros ? [= <-].
  - cbn. now rewrite Hl.
  - intros ? [=].
Qed.

Lemma background_return msg rsoil0 rsoil psoil s1 s2 t soil :
  background msg rsoil0 rsoil psoil s1 s2 = (t, Return soil) ->
  (rsoil0 = Some soil /\ t = []) \/
  (rsoil0 = None /\ t = [EvMix] /\
   exists r p, rsoil = Some r /\ psoil = Some p /\
               (soil_mixture r p s1 s2).2 = Return soil).
Proof.
  destruct (backgroundP msg rsoil0 rsoil psoil s1 s2) as [r ? ?|r p o Ho|? ? ?].
  - intros [= <- <-]. now left.
  - intros [= <- ->]. right. repeat split. now exists r, p.
  - intros [=].
Qed.

Lemma select_factor_not_none F rho :
  str_in F factors = true -> (select_factor F rho).2 <> Return RetNone.
Proof.
  unfold str_in, factors, select_factor, row. cbn [existsb].
  destruct (F =? "SDR")%string; [destruct (rho !! 0); discriminate|].
  destruct (F =? "BHR")%string; [destruct (rho !! 1); discriminate|].
  destruct (F =? "DHR")%string; [destruct (rho !! 2); discriminate|].
  destruct (F =? "HDR")%string; [destruct (rho !! 3); discriminate|].
  destruct (F =? "ALL")%string; discriminate.
Qed.

Lemma component1_given g (s : spectrum) :
  length s = 2101 -> component1 g (Some s) = ([], Return s).
Proof.
  intros H. unfold component1, py_assert.
  apply Nat.eqb_eq in H. now rewrite H.
Qed.

Lemma component2_given g (s1 s2 : spectrum) :
  length s1 = 2101 -> component2 g s1 (Some s2) = ([], Return s2).
Proof.
  intros H. unfold component2, py_assert.
  apply Nat.eqb_eq in H. now rewrite H.
Qed.

(** ** The array addition inside the mixture *)

Lemma np_scale_one (a : list float) : np_scale 1 a = a.
Proof.
  unfold np_scale. induction a as [|x a IH]; [reflexivity|].
  cbn [map]. now rewrite Binary64.mul_one_l, IH.
Qed.


Lemma np_add_broadcast_r (a : list float) y :
  length a = 2101 ->
  np_add a [y] = ([], Return (map (fun x => (x + y)%float) a)).
Proof.
  intros Ha. unfold np_add.
  assert (E : (length a =? length [y])%nat = false)
    by (apply Nat.eqb_neq; rewrite Ha; discriminate).
  rewrite E.
  destruct a as [|x [|x' a]]; [discriminate Ha | discriminate Ha |].
  reflexivity.
Qed.


Lemma soil_mixture_broadcast rsoil psoil (s1 : list float) y :
  length s1 = 2101 ->
  soil_mixture rsoil psoil s1 [y]
  = ([EvMix],
     Return (map (fun x1 => (rsoil * (psoil * x1 + (1 - psoil) * y))%float)
               s1)).
Proof.
  intros H1. unfold soil_mixture. cbn [np_scale map].
  rewrite np_add_broadcast_r by (unfold np_scale; now rewrite length_map).
  cbn. unfold np_scale. now rewrite !map_map.
Qed.

(** X1.  Brightness 1.0 is neutral bit for bit: the mixture with
    [rsoil = 1.0] is the moisture-weighted sum itself, for all floats,
    infinities and NaN included, and fails exactly when that sum fails. *)
Theorem unit_brightness_is_neutral :
  forall psoil s1 s2,
    soil_mixture 1 psoil s1 s2
    = (tell EvMix ;;
       np_add (np_scale psoil s1) (np_scale (1 - psoil)%float s2)).
Proof.
  intros psoil s1 s2. unfold soil_mixture.
  pose proof (np_add_trace (np_scale psoil s1)
                (np_scale (1 - psoil) s2)) as Ht.
  destruct (np_add _ _) as [t [m|e]]; cbn in Ht; subst t; cbn;
    [now rewrite np_scale_one | reflexivity].
Qed.

Section DriverShape.

Variable g : Globals.
Variables refl trans : spectrum.
Variables n cab car cbrown cw cm ant alpha : float.
Variables lai lidfa hspot tts tto psi lidfb : float.
Variable prospect_version : string.
Variable typelidf : Z.

Local Abbreviation sail_call :=
  (run_sail g refl trans lai lidfa hspot tts tto psi typelidf lidfb).
Local Abbreviation prosail_call :=
  (run_prosail g n cab car cbrown cw cm lai lidfa hspot tts tto psi ant
     alpha prospect_version typelidf lidfb).
Local Abbreviation canopy_args r t soil :=
  {| sc_refl := r; sc_trans := t; sc_lai := lai;
     sc_lidfa := lidfa; sc_lidfb := lidfb; sc_rsoil0 := soil;
     sc_hspot := hspot; sc_tts := tts; sc_tto := tto;
     sc_psi := psi; sc_typelidf := typelidf |}.
Local Abbreviation canopy_call soil := (canopy_args refl trans soil).
Local Abbreviation leaf_call nr kab kcar kbrown kw km kant :=
  {| pc_n := n; pc_cab := cab; pc_car := car; pc_cbrown := cbrown;
     pc_cw := cw; pc_cm := cm; pc_ant := ant;
     pc_prospect_version := prospect_version;
     pc_nr := nr; pc_kab := kab; pc_kcar := kcar;
     pc_kbrown := kbrown; pc_kw := kw; pc_km := km;
     pc_kant := kant; pc_alpha := alpha |}.

(** The outcome of a call once [sail] has answered. *)
Local Abbreviation canopy_outcome sail c factor :=
  (match sail c with
   | Return rho => (select_factor (upper factor) rho).2
   | Raise e => Raise e
   end).

(** The steps done before the models: nothing, or the mixture, which is
    only evaluated without [rsoil0] and with both scalars. *)
Local Abbreviation mix_or_nothing pre rsoil0 rsoil psoil :=
  (pre = [] \/
   (pre = [EvMix] /\ rsoil0 = None /\
    exists r p, rsoil = Some r /\ psoil = Some p)).

Lemma background_trace msg rsoil0 rsoil psoil s1 s2 :
  mix_or_nothing (background msg rsoil0 rsoil psoil s1 s2).1
    rsoil0 rsoil psoil.
Proof.
  destruct (backgroundP msg rsoil0 rsoil psoil s1 s2) as [r ? ?|r p o Ho|? ? ?];
    cbn; eauto 8.
Qed.

(** [run_sail] either stops before the canopy model, with nothing or only
    the mixture done, or passes every block and calls it once. *)
Lemma run_sail_shape factor rsoil0 rsoil psoil ss1 ss2 :
  (exists e pre,
      sail_call factor rsoil0 rsoil psoil ss1 ss2 = (pre, Raise e) /\
      mix_or_nothing pre rsoil0 rsoil psoil) \/
  (exists pre s1 s2 soil sail,
      str_in (upper factor) factors = true /\
      component1 g ss1 = ([], Return s1) /\
      component2 g s1 ss2 = ([], Return s2) /\
      background sail_soil_msg rsoil0 rsoil psoil s1 s2 = (pre, Return soil) /\
      mix_or_nothing pre rsoil0 rsoil psoil /\
      g_sail g = Some sail /\
      sail_call factor rsoil0 rsoil psoil ss1 ss2
      = (pre ++ [EvSail (canopy_call soil)],
         canopy_outcome sail (canopy_call soil) factor)).
Proof.
  destruct (str_in (upper factor) factors) eqn:Hf;
    [|left; exists (ValueError factor_msg), [];
      split; [now apply rejected_factor | now left]].
  destruct (component1 g ss1) as [t1 [s1|e1]] eqn:E1.
  2:{ left. exists e1, t1. unfold run_sail.
      rewrite (check_factor_ok _ Hf), bind_nil_return, E1.
      split; [reflexivity|]. left.
      now destruct (component1P g ss1); injection E1 as <-. }
  destruct (component1_return _ _ _ _ E1) as (-> & _ & _).
  destruct (component2 g s1 ss2) as [t2 [s2|e2]] eqn:E2.
  2:{ left. exists e2, t2. unfold run_sail.
      rewrite (check_factor_ok _ Hf), bind_nil_return, E1, bind_nil_return,
        E2.
      split; [reflexivity|]. left.
      now destruct (component2P g s1 ss2); injection E2 as <-. }
  destruct (component2_return _ _ _ _ _ E2) as (-> & _ & _).
  pose proof (background_trace sail_soil_msg rsoil0 rsoil psoil s1 s2) as Hpre.
  destruct (background sail_soil_msg rsoil0 rsoil psoil s1 s2)
    as [pre [soil|e3]] eqn:E3; cbn [fst] in Hpre.
  2:{ left. exists e3, pre. unfold run_sail.
      rewrite (check_factor_ok _ Hf), bind_nil_return, E1, bind_nil_return,
        E2, bind_nil_return, E3.
      now split. }
  destruct (g_sail g) as [sail|] eqn:Hs.
  - right. exists pre, s1, s2, soil, sail. repeat split; try assumption.
    now apply run_sail_steps with (s1 := s1) (s2 := s2).
  - left. exists (NameError "sail"), pre. split; [|assumption].
    unfold run_sail.
    rewrite (check_factor_ok _ Hf), bind_nil_return, E1, bind_nil_return,
      E2, bind_nil_return, E3, bind_return.
    unfold load_global. rewrite Hs. cbn. now rewrite app_nil_r.
Qed.

(** X2.  Both functions read the selector through its upper-case form only:
    two selectors with the same upper-case form give the same trace and
    outcome, and a selector can be replaced by its upper-case form. *)
Theorem factor_case_insensitive :
  forall factor factor' rsoil0 rsoil psoil ss1 ss2,
    upper factor = upper factor' ->
    sail_call factor rsoil0 rsoil psoil ss1 ss2
    = sail_call factor' rsoil0 rsoil psoil ss1 ss2 /\
    prosail_call factor rsoil0 rsoil psoil ss1 ss2
    = prosail_call factor' rsoil0 rsoil psoil ss1 ss2 /\
    sail_call (upper factor) rsoil0 rsoil psoil ss1 ss2
    = sail_call factor rsoil0 rsoil psoil ss1 ss2 /\
    prosail_call (upper factor) rsoil0 rsoil psoil ss1 ss2
    = prosail_call factor rsoil0 rsoil psoil ss1 ss2.
Proof.
  intros factor factor' rsoil0 rsoil psoil ss1 ss2 Hu.
  unfold run_sail, run_prosail.
  rewrite (check_factor_upper _ _ Hu).
  rewrite (check_factor_upper (upper factor) factor (upper_idem factor)).
  rewrite (check_factor_upper factor factor' Hu).
  repeat split.
Qed.

(** X3.  [run_sail] never calls the leaf model and calls the canopy model at
    most once, as its last step: its trace is empty, the mixture alone, the
    canopy call alone, or the mixture followed by the canopy call.  The
    mixture is only evaluated when [rsoil0] is missing and both scalars are
    given, and a value is only returned after the canopy model was called. *)
Theorem run_sail_calls_canopy_once :
  forall (factor : string) (rsoil0 : option spectrum)
         (rsoil psoil : option float) (ss1 ss2 : option spectrum),
    ((sail_call factor rsoil0 rsoil psoil ss1 ss2).1 = [] \/
     (sail_call factor rsoil0 rsoil psoil ss1 ss2).1 = [EvMix] \/
     exists soil,
       (sail_call factor rsoil0 rsoil psoil ss1 ss2).1
       = [EvSail (canopy_call soil)] \/
       (sail_call factor rsoil0 rsoil psoil ss1 ss2).1
       = [EvMix; EvSail (canopy_call soil)]) /\
    (forall c,
        ~ In (EvProspect c) (sail_call factor rsoil0 rsoil psoil ss1 ss2).1) /\
    (In EvMix (sail_call factor rsoil0 rsoil psoil ss1 ss2).1 ->
     rsoil0 = None /\ exists r p, rsoil = Some r /\ psoil = Some p) /\
    (forall v,
        (sail_call factor rsoil0 rsoil psoil ss1 ss2).2 = Return v ->
        exists soil,
          In (EvSail (canopy_call soil))
            (sail_call factor rsoil0 rsoil psoil ss1 ss2).1).
Proof.
  intros factor rsoil0 rsoil psoil ss1 ss2.
  destruct (run_sail_shape factor rsoil0 rsoil psoil ss1 ss2)
    as [(e & pre & -> & Hpre)
       |(pre & s1 & s2 & soil & sail & _ & _ & _ & _ & Hpre & _ & ->)];
    cbn [fst snd].
  - split; [destruct Hpre as [-> | (-> & _)]; auto|].
    split; [intros c Hin; destruct Hpre as [-> | (-> & _)]; cbn in Hin;
            intuition discriminate|].
    split; [|intros v [=]].
    destruct Hpre as [-> | (-> & Hr & Hs)]; [intros []|auto].
  - split; [destruct Hpre as [-> | (-> & _)]; cbn [app]; eauto|].
    split; [intros c Hin; destruct Hpre as [-> | (-> & _)]; cbn in Hin;
            intuition discriminate|].
    split; [|intros v _; exists soil; apply in_or_app; right; now left].
    destruct Hpre as [-> | (-> & Hr & Hs)]; [|auto].
    intros Hin. cbn in Hin. intuition discriminate.
Qed.

(** The outcome of [run_prosail] once the seven names are read: the leaf
    model is called, then [sail] is read and called. *)
Local Abbreviation leaf_outcome pre pc soil factor :=
  (match g_run_prospect g pc with
   | Raise e => (pre ++ [EvProspect pc], Raise e)
   | Return (wv, r, t) =>
       match g_sail g with
       | None => (pre ++ [EvProspect pc], Raise (NameError "sail"))
       | Some sail =>
           (pre ++ [EvProspect pc; EvSail (canopy_args r t soil)],
            canopy_outcome sail (canopy_args r t soil) factor)
       end
   end).

Lemma run_prosail_steps factor rsoil0 rsoil psoil ss1 ss2 s1 s2 pre soil
    nr kab kcar kbrown kw km kant :
  str_in (upper factor) factors = true ->
  component1 g ss1 = ([], Return s1) ->
  component2 g s1 ss2 = ([], Return s2) ->
  background prosail_soil_msg rsoil0 rsoil psoil s1 s2 = (pre, Return soil) ->
  g_nr g = Some nr -> g_kab g = Some kab -> g_kcar g = Some kcar ->
  g_kbrown g = Some kbrown -> g_kw g = Some kw -> g_km g = Some km ->
  g_kant g = Some kant ->
  prosail_call factor rsoil0 rsoil psoil ss1 ss2
  = leaf_outcome pre (leaf_call nr kab kcar kbrown kw km kant) soil factor.
Proof.
  intros Hf E1 E2 E3 Hnr Hkab Hkcar Hkbrown Hkw Hkm Hkant.
  unfold run_prosail.
  rewrite (check_factor_ok _ Hf), !bind_nil_return, E1,
    !bind_nil_return, E2, !bind_nil_return, E3, bind_return.
  unfold load_global, call_prospect, call_sail, tell, lift.
  rewrite Hnr, Hkab, Hkcar, Hkbrown, Hkw, Hkm, Hkant.
  cbn [bind ret app fst snd].
  destruct (g_run_prospect g _) as [[[wv r] t]|e]; cbn [bind ret app fst snd];
    [|reflexivity].
  destruct (g_sail g) as [sail|]; cbn [bind ret raise app fst snd];
    [|reflexivity].
  destruct (sail _) as [rho|e]; cbn [bind app fst snd]; [|reflexivity].
  rewrite (surjective_pairing (select_factor _ _)), select_factor_trace.
  reflexivity.
Qed.

(** [run_prosail] either stops before the leaf model, with nothing or only
    the mixture done, or passes every block, reads the seven names and goes
    on with the leaf model. *)
Lemma run_prosail_shape factor rsoil0 rsoil psoil ss1 ss2 :
  (exists e pre,
      prosail_call factor rsoil0 rsoil psoil ss1 ss2 = (pre, Raise e) /\
      mix_or_nothing pre rsoil0 rsoil psoil) \/
  (exists pre s1 s2 soil nr kab kcar kbrown kw km kant,
      str_in (upper factor) factors = true /\
      component1 g ss1 = ([], Return s1) /\
      component2 g s1 ss2 = ([], Return s2) /\
      background prosail_soil_msg rsoil0 rsoil psoil s1 s2
      = (pre, Return soil) /\
      mix_or_nothing pre rsoil0 rsoil psoil /\
      (g_nr g = Some nr /\ g_kab g = Some kab /\ g_kcar g = Some kcar /\
       g_kbrown g = Some kbrown /\ g_kw g = Some kw /\ g_km g = Some km /\
       g_kant g = Some kant) /\
      prosail_call factor rsoil0 rsoil psoil ss1 ss2
      = leaf_outcome pre (leaf_call nr kab kcar kbrown kw km kant) soil
          factor).
Proof.
  destruct (str_in (upper factor) factors) eqn:Hf;
    [|left; exists (ValueError factor_msg), [];
      split; [now apply rejected_factor | now left]].
  destruct (component1 g ss1) as [t1 [s1|e1]] eqn:E1.
  2:{ left. exists e1, t1. unfold run_prosail.
      rewrite (check_factor_ok _ Hf), bind_nil_return, E1.
      split; [reflexivity|]. left.
      now destruct (component1P g ss1); injection E1 as <-. }
  destruct (component1_return _ _ _ _ E1) as (-> & _ & _).
  destruct (component2 g s1 ss2) as [t2 [s2|e2]] eqn:E2.
  2:{ left. exists e2, t2. unfold run_prosail.
      rewrite (check_factor_ok _ Hf), bind_nil_return, E1, bind_nil_return,
        E2.
      split; [reflexivity|]. left.
      now destruct (component2P g s1 ss2); injection E2 as <-. }
  destruct (component2_return _ _ _ _ _ E2) as (-> & _ & _).
  pose proof (background_trace prosail_soil_msg rsoil0 rsoil psoil s1 s2)
    as Hpre.
  destruct (background prosail_soil_msg rsoil0 rsoil psoil s1 s2)
    as [pre [soil|e3]] eqn:E3; cbn [fst] in Hpre.
  2:{ left. exists e3, pre. unfold run_prosail.
      rewrite (check_factor_ok _ Hf), bind_nil_return, E1, bind_nil_return,
        E2, bind_nil_return, E3.
      now split. }
  destruct (g_nr g) as [nr|] eqn:Hnr, (g_kab g) as [kab|] eqn:Hkab,
    (g_kcar g) as [kcar|] eqn:Hkcar, (g_kbrown g) as [kbrown|] eqn:Hkbrown,
    (g_kw g) as [kw|] eqn:Hkw, (g_km g) as [km|] eqn:Hkm,
    (g_kant g) as [kant|] eqn:Hkant.
  1:{ right. exists pre, s1, s2, soil, nr, kab, kcar, kbrown, kw, km, kant.
      repeat split; try assumption.
      now apply run_prosail_steps with (s1 := s1) (s2 := s2). }
  all: left; eexists _, pre; (split; [|assumption]);
    unfold run_prosail;
    rewrite (check_factor_ok _ Hf), bind_nil_return, E1, bind_nil_return,
      E2, bind_nil_return, E3, bind_return;
    unfold load_global;
    rewrite ?Hnr, ?Hkab, ?Hkcar, ?Hkbrown, ?Hkw, ?Hkm, ?Hkant;
    cbn [bind ret raise app fst snd]; now rewrite app_nil_r.
Qed.

Lemma select_factor_value F rho v :
  str_in F factors = true ->
  (select_factor F rho).2 = Return v ->
  v = RetAll rho \/
  exists k r, k < 4 /\ rho !! k = Some r /\ v = RetSpectrum r.
Proof.
  assert (Hrow : forall k, k < 4 ->
            (r <- row rho k;; ret (RetSpectrum r)).2 = Return v ->
            exists k r, k < 4 /\ rho !! k = Some r /\ v = RetSpectrum r).
  { intros k Hk. unfold row. destruct (rho !! k) as [r|] eqn:E; [|discriminate].
    intros [= <-]. now exists k, r. }
  unfold str_in, factors, select_factor. cbn [existsb].
  destruct (F =? "SDR")%string;
    [intros _ H; right; apply (Hrow 0); [lia|exact H]|].
  destruct (F =? "BHR")%string;
    [intros _ H; right; apply (Hrow 1); [lia|exact H]|].
  destruct (F =? "DHR")%string;
    [intros _ H; right; apply (Hrow 2); [lia|exact H]|].
  destruct (F =? "HDR")%string;
    [intros _ H; right; apply (Hrow 3); [lia|exact H]|].
  destruct (F =? "ALL")%string; [intros _ [= <-]; now left | discriminate].
Qed.

Lemma canopy_outcome_not_none (sail : SailFn) c factor :
  str_in (upper factor) factors = true ->
  canopy_outcome sail c factor <> Return RetNone.
Proof.
  intros Hf. destruct (sail c); [now apply select_factor_not_none|discriminate].
Qed.

(** X4.  Neither function ever returns [None]: once the selector is
    accepted, one branch of the final if/elif chain is taken. *)
Theorem never_returns_none :
  forall (factor : string) (rsoil0 : option spectrum)
         (rsoil psoil : option float) (ss1 ss2 : option spectrum),
    (sail_call factor rsoil0 rsoil psoil ss1 ss2).2 <> Return RetNone /\
    (prosail_call factor rsoil0 rsoil psoil ss1 ss2).2 <> Return RetNone.
Proof.
  intros factor rsoil0 rsoil psoil ss1 ss2. split.
  - destruct (run_sail_shape factor rsoil0 rsoil psoil ss1 ss2)
      as [(e & pre & -> & _)
         |(pre & s1 & s2 & soil & sail & Hf & _ & _ & _ & _ & _ & ->)];
      cbn [snd]; [discriminate | now apply canopy_outcome_not_none].
  - destruct (run_prosail_shape factor rsoil0 rsoil psoil ss1 ss2)
      as [(e & pre & -> & _)
         |(pre & s1 & s2 & soil & nr & kab & kcar & kbrown & kw & km & kant
           & Hf & _ & _ & _ & _ & _ & ->)];
      cbn [snd]; [discriminate|].
    destruct (g_run_prospect g _) as [[[wv r] t]|e]; [|discriminate].
    destruct (g_sail g) as [sail|]; [|discriminate].
    now apply canopy_outcome_not_none.
Qed.

(** X5.  [run_prosail] calls the leaf model at most once and the canopy model
    at most once, in that order, after the mixture if there is one: the leaf
    model receives the seven tables read from the global names, and the
    canopy model is only called once the leaf model has returned, with the
    reflectance and transmittance it returned.  A value is only returned
    after the canopy model was called. *)
Theorem run_prosail_calls_leaf_then_canopy :
  forall (factor : string) (rsoil0 : option spectrum)
         (rsoil psoil : option float) (ss1 ss2 : option spectrum),
    exists pre,
      (pre = [] \/ pre = [EvMix]) /\
      ((prosail_call factor rsoil0 rsoil psoil ss1 ss2).1 = pre \/
       exists nr kab kcar kbrown kw km kant,
         (g_nr g = Some nr /\ g_kab g = Some kab /\ g_kcar g = Some kcar /\
          g_kbrown g = Some kbrown /\ g_kw g = Some kw /\ g_km g = Some km /\
          g_kant g = Some kant) /\
         ((prosail_call factor rsoil0 rsoil psoil ss1 ss2).1
          = pre ++ [EvProspect (leaf_call nr kab kcar kbrown kw km kant)] \/
          exists wv r t soil,
            g_run_prospect g (leaf_call nr kab kcar kbrown kw km kant)
            = Return (wv, r, t) /\
            (prosail_call factor rsoil0 rsoil psoil ss1 ss2).1
            = pre ++ [EvProspect (leaf_call nr kab kcar kbrown kw km kant);
                      EvSail (canopy_args r t soil)])) /\
      (forall v,
          (prosail_call factor rsoil0 rsoil psoil ss1 ss2).2 = Return v ->
          exists c,
            In (EvSail c) (prosail_call factor rsoil0 rsoil psoil ss1 ss2).1).
Proof.
  intros factor rsoil0 rsoil psoil ss1 ss2.
  destruct (run_prosail_shape factor rsoil0 rsoil psoil ss1 ss2)
    as [(e & pre & -> & Hpre)
       |(pre & s1 & s2 & soil & nr & kab & kcar & kbrown & kw & km & kant
         & _ & _ & _ & _ & Hpre & Hnames & ->)];
    exists pre;
    (split; [destruct Hpre as [-> | (-> & _)]; auto|]).
  - split; [now left | intros v [=]].
  - destruct (g_run_prospect g _) as [[[wv r] t]|e] eqn:Hleaf;
      [destruct (g_sail g) as [sail|]|]; cbn [fst snd].
    + split.
      * right. exists nr, kab, kcar, kbrown, kw, km, kant.
        split; [assumption|]. right. now exists wv, r, t, soil.
      * intros v _. eexists. apply in_or_app. right. right. now left.
    + split; [|intros v [=]].
      right. exists nr, kab, kcar, kbrown, kw, km, kant. split; auto.
    + split; [|intros v [=]].
      right. exists nr, kab, kcar, kbrown, kw, km, kant. split; auto.
Qed.

(** X6.  Exceptions of the two models are not caught.  In a call whose
    selector is accepted and whose soil inputs resolve, an exception raised
    by the canopy model is the outcome of [run_sail] and of [run_prosail],
    and an exception raised by the leaf model is the outcome of
    [run_prosail], which then never calls the canopy model. *)
Theorem model_exceptions_propagate :
  forall factor rsoil0 rsoil psoil ss1 ss2 soil e,
    str_in (upper factor) factors = true ->
    resolves_soil (g_spectral_libs g) rsoil0 rsoil psoil ss1 ss2 soil ->
    (forall sail,
        g_sail g = Some sail ->
        sail (canopy_call soil) = Raise e ->
        (sail_call factor rsoil0 rsoil psoil ss1 ss2).2 = Raise e /\
        In (EvSail (canopy_call soil))
          (sail_call factor rsoil0 rsoil psoil ss1 ss2).1) /\
    (forall nr kab kcar kbrown kw km kant,
        g_nr g = Some nr -> g_kab g = Some kab -> g_kcar g = Some kcar ->
        g_kbrown g = Some kbrown -> g_kw g = Some kw -> g_km g = Some km ->
        g_kant g = Some kant ->
        (g_run_prospect g (leaf_call nr kab kcar kbrown kw km kant)
         = Raise e ->
         (prosail_call factor rsoil0 rsoil psoil ss1 ss2).2 = Raise e /\
         forall c,
           ~ In (EvSail c)
               (prosail_call factor rsoil0 rsoil psoil ss1 ss2).1) /\
        (forall sail wv r t,
            g_run_prospect g (leaf_call nr kab kcar kbrown kw km kant)
            = Return (wv, r, t) ->
            g_sail g = Some sail ->
            sail (canopy_args r t soil) = Raise e ->
            (prosail_call factor rsoil0 rsoil psoil ss1 ss2).2 = Raise e)).
Proof.
  intros factor rsoil0 rsoil psoil ss1 ss2 soil e Hf Hsoil. split.
  - intros sail Hs He.
    destruct (resolves_soil_run g sail_soil_msg _ _ _ _ _ _ Hsoil)
      as (s1 & s2 & pre & E1 & E2 & E3).
    rewrite (run_sail_steps g refl trans lai lidfa hspot tts tto psi lidfb
               typelidf factor rsoil0 rsoil psoil ss1 ss2 s1 s2 pre soil sail)
      by assumption.
    rewrite He. cbn [fst snd]. split; [reflexivity|].
    apply in_or_app. right. now left.
  - intros nr kab kcar kbrown kw km kant Hnr Hkab Hkcar Hkbrown Hkw Hkm Hkant.
    destruct (resolves_soil_run g prosail_soil_msg _ _ _ _ _ _ Hsoil)
      as (s1 & s2 & pre & E1 & E2 & E3).
    pose proof (background_trace prosail_soil_msg rsoil0 rsoil psoil s1 s2)
      as Hpre.
    rewrite E3 in Hpre. cbn [fst] in Hpre.
    rewrite (run_prosail_steps factor rsoil0 rsoil psoil ss1 ss2 s1 s2 pre
               soil nr kab kcar kbrown kw km kant) by assumption.
    split.
    + intros ->. cbn [fst snd]. split; [reflexivity|].
      intros c Hin. apply in_app_or in Hin.
      destruct Hin as [Hin|Hin];
        [destruct Hpre as [-> | (-> & _)]|]; cbn in Hin;
        intuition discriminate.
    + intros sail wv r t -> -> ->. reflexivity.
Qed.

(** X7.  [run_sail] returns a value only when every check has passed and
    the canopy model has answered: the selector is accepted, a supplied
    [soil_spectrum1] has 2101 entries, [spectral_libs] is bound if a
    component is omitted, [rsoil0] or both scalars are supplied, [sail] is
    bound and returned an array on the call that ends the trace, and the
    value is that array or one of its first four rows. *)
Theorem run_sail_returns_only_when_valid :
  forall factor rsoil0 rsoil psoil ss1 ss2 t v,
    sail_call factor rsoil0 rsoil psoil ss1 ss2 = (t, Return v) ->
    str_in (upper factor) factors = true /\
    (forall s, ss1 = Some s -> length s = 2101) /\
    (ss1 = None \/ ss2 = None -> exists libs, g_spectral_libs g = Some libs) /\
    (rsoil0 = None -> exists r p, rsoil = Some r /\ psoil = Some p) /\
    exists sail soil rho,
      g_sail g = Some sail /\
      sail (canopy_call soil) = Return rho /\
      (forall r, rsoil0 = Some r -> soil = r) /\
      last t = Some (EvSail (canopy_call soil)) /\
      (v = RetAll rho \/
       exists k r, k < 4 /\ rho !! k = Some r /\ v = RetSpectrum r).
Proof.
  intros factor rsoil0 rsoil psoil ss1 ss2 t v Hrun.
  destruct (run_sail_shape factor rsoil0 rsoil psoil ss1 ss2)
    as [(e & pre & E & _)
       |(pre & s1 & s2 & soil & sail & Hf & E1 & E2 & E3 & _ & Hs & E)];
    rewrite E in Hrun; [discriminate|].
  injection Hrun as <- Hv.
  destruct (component1_return _ _ _ _ E1) as (_ & Hc1 & Hlen1).
  destruct (component2_return _ _ _ _ _ E2) as (_ & Hc2 & _).
  split; [assumption|]. split; [assumption|]. split; [|split].
  - intros [-> | ->]; cbn in Hc1, Hc2;
      destruct (g_spectral_libs g) as [libs|]; try discriminate; eauto.
  - intros ->.
    destruct (background_return _ _ _ _ _ _ _ _ E3)
      as [([=] & _) | (_ & _ & r & p & -> & -> & _)]. eauto.
  - destruct (sail (canopy_call soil)) as [rho|e] eqn:Hrho; [|discriminate].
    exists sail, soil, rho. repeat split; try assumption.
    + intros r ->.
      destruct (background_return _ _ _ _ _ _ _ _ E3)
        as [([= ->] & _) | ([=] & _)]. reflexivity.
    + now rewrite last_snoc.
    + now apply (select_factor_value (upper factor)).
Qed.

(** X8.  [run_prosail] is the leaf model followed by [run_sail]: once the
    seven names are bound and the leaf model returns reflectance [r] and
    transmittance [t], [run_prosail] has the outcome [run_sail] has on [r],
    [t] and the same canopy, selector and soil arguments; the only
    difference is the wording of the error for missing scalars. *)
Theorem run_prosail_is_leaf_then_run_sail :
  forall factor rsoil0 rsoil psoil ss1 ss2 nr kab kcar kbrown kw km kant
         wv r t,
    g_nr g = Some nr -> g_kab g = Some kab -> g_kcar g = Some kcar ->
    g_kbrown g = Some kbrown -> g_kw g = Some kw -> g_km g = Some km ->
    g_kant g = Some kant ->
    g_run_prospect g (leaf_call nr kab kcar kbrown kw km kant)
    = Return (wv, r, t) ->
    (prosail_call factor rsoil0 rsoil psoil ss1 ss2).2
    = (run_sail g r t lai lidfa hspot tts tto psi typelidf lidfb
         factor rsoil0 rsoil psoil ss1 ss2).2 \/
    (rsoil0 = None /\ (rsoil = None \/ psoil = None) /\
     (prosail_call factor rsoil0 rsoil psoil ss1 ss2).2
     = Raise (ValueError prosail_soil_msg) /\
     (run_sail g r t lai lidfa hspot tts tto psi typelidf lidfb
        factor rsoil0 rsoil psoil ss1 ss2).2
     = Raise (ValueError sail_soil_msg)).
Proof.
  intros factor rsoil0 rsoil psoil ss1 ss2 nr kab kcar kbrown kw km kant
    wv r t Hnr Hkab Hkcar Hkbrown Hkw Hkm Hkant Hleaf.
  destruct (str_in (upper factor) factors) eqn:Hf.
  2:{ left. unfold run_sail, run_prosail.
      now rewrite (check_factor_bad _ Hf). }
  destruct (component1 g ss1) as [t1 [s1|e1]] eqn:E1.
  2:{ left. unfold run_sail, run_prosail.
      now rewrite (check_factor_ok _ Hf), !bind_nil_return, E1. }
  destruct (component1_return _ _ _ _ E1) as (-> & _ & _).
  destruct (component2 g s1 ss2) as [t2 [s2|e2]] eqn:E2.
  2:{ left. unfold run_sail, run_prosail.
      now rewrite (check_factor_ok _ Hf), !bind_nil_return, E1,
        !bind_nil_return, E2. }
  destruct (component2_return _ _ _ _ _ E2) as (-> & _ & _).
  assert (Hres : forall msg pre soil,
             background msg rsoil0 rsoil psoil s1 s2 = (pre, Return soil) ->
             (prosail_call factor rsoil0 rsoil psoil ss1 ss2).2
             = (run_sail g r t lai lidfa hspot tts tto psi typelidf lidfb
                  factor rsoil0 rsoil psoil ss1 ss2).2).
  { intros msg pre soil E3.
    assert (E3s : background sail_soil_msg rsoil0 rsoil psoil s1 s2
                  = (pre, Return soil))
      by (revert E3; unfold background;
          destruct rsoil0, rsoil, psoil; auto; discriminate).
    assert (E3p : background prosail_soil_msg rsoil0 rsoil psoil s1 s2
                  = (pre, Return soil))
      by (revert E3; unfold background;
          destruct rsoil0, rsoil, psoil; auto; discriminate).
    rewrite (run_prosail_steps factor rsoil0 rsoil psoil ss1 ss2 s1 s2 pre
               soil nr kab kcar kbrown kw km kant) by assumption.
    rewrite Hleaf.
    destruct (g_sail g) as [sail|] eqn:Hs.
    - now rewrite (run_sail_steps g r t lai lidfa hspot tts tto psi lidfb
                     typelidf factor rsoil0 rsoil psoil ss1 ss2 s1 s2 pre
                     soil sail) by assumption.
    - unfold run_sail.
      rewrite (check_factor_ok _ Hf), !bind_nil_return, E1,
        !bind_nil_return, E2, !bind_nil_return, E3s, bind_return.
      unfold load_global. now rewrite Hs. }
  destruct rsoil0 as [r0|].
  { left. now apply (Hres sail_soil_msg [] r0). }
  destruct rsoil as [rs|]; [destruct psoil as [ps|]|].
  - left.
    destruct (soil_mixture rs ps s1 s2) as [tm [m|e]] eqn:Em.
    + now apply (Hres sail_soil_msg tm m).
    + unfold run_sail, run_prosail.
      rewrite (check_factor_ok _ Hf), !bind_nil_return, E1,
        !bind_nil_return, E2, !bind_nil_return.
      cbn [background]. now rewrite Em.
  - right. unfold run_sail, run_prosail.
    rewrite (check_factor_ok _ Hf), !bind_nil_return, E1,
      !bind_nil_return, E2, !bind_nil_return.
    repeat split; auto.
  - right. unfold run_sail, run_prosail.
    rewrite (check_factor_ok _ Hf), !bind_nil_return, E1,
      !bind_nil_return, E2, !bind_nil_return.
    repeat split; auto.
Qed.

Lemma bind_ext_l {A B} (m : M A) (k k' : A -> M B) :
  (forall a, k a = k' a) -> bind m k = bind m k'.
Proof. intros H. destruct m as [t [a|e]]; cbn; now rewrite ?H. Qed.

(** X9.  A precomputed [rsoil0] makes the mixing inputs irrelevant: the
    trace and outcome of both functions are the same for any [rsoil] and
    [psoil], given or not, and for any two arrays supplied as
    [soil_spectrum2], whatever their lengths. *)
Theorem precomputed_soil_ignores_mixing_inputs :
  forall (factor : string) (r : spectrum)
         (rsoil psoil rsoil' psoil' : option float)
         (ss1 : option spectrum) (s s' : spectrum),
    sail_call factor (Some r) rsoil psoil ss1 (Some s)
    = sail_call factor (Some r) rsoil' psoil' ss1 (Some s') /\
    prosail_call factor (Some r) rsoil psoil ss1 (Some s)
    = prosail_call factor (Some r) rsoil' psoil' ss1 (Some s').
Proof.
  intros factor r rsoil psoil rsoil' psoil' ss1 s s'.
  split; unfold run_sail, run_prosail;
    apply bind_ext_l; intros F; apply bind_ext_l; intros s1;
    unfold component2, py_assert;
    destruct (length s1 =? 2101)%nat; reflexivity.
Qed.

(** X10.  The array the canopy model returns is not checked for its shape.
    In a call whose soil inputs resolve, ALL returns the array as it is,
    whatever its number of rows, and SDR, BHR, DHR, HDR return row 0, 1, 2,
    3 when the array has it and raise [IndexError] when it does not, after
    the canopy model has been called. *)
Theorem canopy_result_shape_unchecked :
  forall rsoil0 rsoil psoil ss1 ss2 soil sail rho,
    resolves_soil (g_spectral_libs g) rsoil0 rsoil psoil ss1 ss2 soil ->
    g_sail g = Some sail ->
    sail (canopy_call soil) = Return rho ->
    (sail_call "ALL" rsoil0 rsoil psoil ss1 ss2).2 = Return (RetAll rho) /\
    forall k name,
      ["SDR"; "BHR"; "DHR"; "HDR"] !! k = Some name ->
      (sail_call name rsoil0 rsoil psoil ss1 ss2).2
      = match rho !! k with
        | Some row => Return (RetSpectrum row)
        | None => Raise IndexError
        end /\
      In (EvSail (canopy_call soil))
        (sail_call name rsoil0 rsoil psoil ss1 ss2).1.
Proof.
  intros rsoil0 rsoil psoil ss1 ss2 soil sail rho Hsoil Hs Hrho.
  destruct (resolves_soil_run g sail_soil_msg _ _ _ _ _ _ Hsoil)
    as (s1 & s2 & pre & E1 & E2 & E3).
  assert (Hrun : forall factor,
             str_in (upper factor) factors = true ->
             sail_call factor rsoil0 rsoil psoil ss1 ss2
             = (pre ++ [EvSail (canopy_call soil)],
                (select_factor (upper factor) rho).2)).
  { intros factor Hf.
    rewrite (run_sail_steps g refl trans lai lidfa hspot tts tto psi lidfb
               typelidf factor rsoil0 rsoil psoil ss1 ss2 s1 s2 pre soil sail)
      by assumption.
    now rewrite Hrho. }
  split; [now rewrite Hrun|].
  intros k name Hk.
  destruct k as [|[|[|[|k]]]]; cbn in Hk; try discriminate;
    injection Hk as <-; (rewrite Hrun; [|reflexivity]); cbn [fst snd];
    (split; [|apply in_or_app; right; now left]);
    match goal with
    | |- context [upper ?nm] =>
        let u := eval vm_compute in (upper nm) in change (upper nm) with u
    end;
    unfold select_factor, row; cbn; now destruct (rho !! _).
Qed.


(** X12.  A [soil_spectrum2] of one entry passes: it is broadcast, and the
    canopy model receives
    [rsoil * (psoil * soil_spectrum1[i] + (1 - psoil) * soil_spectrum2[0])]
    at every wavelength. *)
Theorem one_entry_soil_spectrum2_is_broadcast :
  forall factor rsoil psoil s1 y sail,
    length s1 = 2101 ->
    str_in (upper factor) factors = true ->
    g_sail g = Some sail ->
    exists v,
      sail_call factor None (Some rsoil) (Some psoil) (Some s1) (Some [y])
      = ([EvMix;
          EvSail (canopy_call
                    (map (fun x1 =>
                            (rsoil * (psoil * x1 + (1 - psoil) * y))%float)
                       s1))], v).
Proof.
  intros factor rsoil psoil s1 y sail H1 Hf Hs.
  eexists.
  apply (run_sail_steps g refl trans lai lidfa hspot tts tto psi lidfb
           typelidf factor None (Some rsoil) (Some psoil) (Some s1)
           (Some [y]) s1 [y] [EvMix] _ sail); try assumption.
  - now apply component1_given.
  - now apply component2_given.
  - cbn [background]. now apply soil_mixture_broadcast.
Qed.

(** X13.  The default component spectra are not length-checked: with both
    components omitted and [spectral_libs] bound to two spectra of one
    common length, whatever it is, the canopy model is called with their
    mixture. *)
Theorem default_spectra_not_length_checked :
  forall factor rsoil psoil libs sail,
    g_spectral_libs g = Some libs ->
    length (rsoil1 libs) = length (rsoil2 libs) ->
    str_in (upper factor) factors = true ->
    g_sail g = Some sail ->
    exists v,
      sail_call factor None (Some rsoil) (Some psoil) None None
      = ([EvMix;
          EvSail (canopy_call
                    (zip_with
                       (fun x1 x2 =>
                          (rsoil * (psoil * x1 + (1 - psoil) * x2))%float)
                       (rsoil1 libs) (rsoil2 libs)))], v).
Proof.
  intros factor rsoil psoil libs sail Hl Hlen Hf Hs.
  eexists.
  apply (run_sail_steps g refl trans lai lidfa hspot tts tto psi lidfb
           typelidf factor None (Some rsoil) (Some psoil) None None
           (rsoil1 libs) (rsoil2 libs) [EvMix] _ sail); try assumption.
  - unfold component1, load_global. now rewrite Hl.
  - unfold component2, load_global. now rewrite Hl.
  - cbn [background]. now apply soil_mixture_same_length.
Qed.

(** X14.  The assertion that guards [soil_spectrum2] tests the first
    component.  With [soil_spectrum1] omitted and a default first component
    that has not 2101 entries, any supplied [soil_spectrum2], of whatever
    length, is refused with [AssertionError] before any step, while
    omitting it as well passes both component blocks. *)
Theorem second_assertion_tests_first_component :
  forall factor rsoil0 rsoil psoil libs s,
    g_spectral_libs g = Some libs ->
    length (rsoil1 libs) <> 2101 ->
    str_in (upper factor) factors = true ->
    sail_call factor rsoil0 rsoil psoil None (Some s)
    = ([], Raise AssertionError) /\
    prosail_call factor rsoil0 rsoil psoil None (Some s)
    = ([], Raise AssertionError) /\
    component1 g None = ([], Return (rsoil1 libs)) /\
    component2 g (rsoil1 libs) None = ([], Return (rsoil2 libs)).
Proof.
  intros factor rsoil0 rsoil psoil libs s Hl Hlen Hf.
  unfold run_sail, run_prosail, component1, component2, py_assert,
    load_global.
  rewrite (check_factor_ok _ Hf), !bind_nil_return, Hl.
  apply Nat.eqb_neq in Hlen. cbn [bind ret app]. rewrite Hlen.
  repeat split.
Qed.

(** X15.  With the names the file binds, [run_sail] never returns either: a
    call that passes the selector check and resolves its soil inputs ends in
    the [NameError] for [sail], and no call reaches a model. *)
Theorem run_sail_stops_at_sail :
  forall run_prospect factor rsoil0 rsoil psoil ss1 ss2,
    (exists t e,
        run_sail (module_globals run_prospect) refl trans lai lidfa hspot
          tts tto psi typelidf lidfb factor rsoil0 rsoil psoil ss1 ss2
        = (t, Raise e) /\
        forall ev, In ev t -> is_physics ev = false) /\
    (forall soil,
        str_in (upper factor) factors = true ->
        resolves_soil None rsoil0 rsoil psoil ss1 ss2 soil ->
        (run_sail (module_globals run_prospect) refl trans lai lidfa hspot
           tts tto psi typelidf lidfb factor rsoil0 rsoil psoil ss1 ss2).2
        = Raise (NameError "sail")).
Proof.
  intros run_prospect factor rsoil0 rsoil psoil ss1 ss2. split.
  - apply run_sail_unbound_sail.
  - intros soil Hf Hsoil.
    destruct (resolves_soil_run (module_globals run_prospect)
                sail_soil_msg _ _ _ _ _ _ Hsoil)
      as (s1 & s2 & t & E1 & E2 & E3).
    unfold run_sail.
    rewrite (check_factor_ok _ Hf), !bind_nil_return, E1,
      !bind_nil_return, E2, !bind_nil_return, E3, bind_return.
    reflexivity.
Qed.

End DriverShape.

(** ** The further properties at work *)


(** X2 at work: [sdr] and [Sdr] are the same selector. *)
Lemma factor_case_insensitive_witness :
  upper "sdr" = upper "Sdr" /\
  demo_run_sail demo_globals "sdr" (Some (flat 0.125)) None None
    (Some (flat 0.5)) (Some (flat 0.25))
  = demo_run_sail demo_globals "Sdr" (Some (flat 0.125)) None None
      (Some (flat 0.5)) (Some (flat 0.25)) /\
  demo_run_prosail demo_globals "SDR" (Some (flat 0.125)) None None
    (Some (flat 0.5)) (Some (flat 0.25))
  = demo_run_prosail demo_globals "sdr" (Some (flat 0.125)) None None
      (Some (flat 0.5)) (Some (flat 0.25)).
Proof.
  assert (H : upper "sdr" = upper "Sdr") by reflexivity.
  destruct (factor_case_insensitive demo_globals (flat 0.5) (flat 0.25)
              1.5 40 8 0 0.5 0.5 0 40 3 50 0.5 30 0 0 0 "5" 2
              "sdr" "Sdr" (Some (flat 0.125)) None None
              (Some (flat 0.5)) (Some (flat 0.25)) H)
    as (A & _ & _ & D).
  exact (conj H (conj A D)).
Defined.

(** X6 at work: a leaf model and a canopy model that raise [IndexError]
    on every call. *)
Lemma model_exceptions_propagate_witness :
  str_in (upper "BHR") factors = true /\
  resolves_soil
    (g_spectral_libs
       (globals_with (failing_prospect IndexError) (failing_sail IndexError)
          {| rsoil1 := flat 0.5; rsoil2 := flat 0.25 |}))
    (Some (flat 0.125)) None None (Some (flat 0.5)) (Some (flat 0.25))
    (flat 0.125) /\
  ((demo_run_sail
      (globals_with (failing_prospect IndexError) (failing_sail IndexError)
         {| rsoil1 := flat 0.5; rsoil2 := flat 0.25 |})
      "BHR" (Some (flat 0.125)) None None (Some (flat 0.5))
      (Some (flat 0.25))).2
   = Raise IndexError /\
   In (EvSail (demo_canopy_call (flat 0.125)))
     (demo_run_sail
        (globals_with (failing_prospect IndexError) (failing_sail IndexError)
           {| rsoil1 := flat 0.5; rsoil2 := flat 0.25 |})
        "BHR" (Some (flat 0.125)) None None (Some (flat 0.5))
        (Some (flat 0.25))).1) /\
  ((demo_run_prosail
      (globals_with (failing_prospect IndexError) (failing_sail IndexError)
         {| rsoil1 := flat 0.5; rsoil2 := flat 0.25 |})
      "BHR" (Some (flat 0.125)) None None (Some (flat 0.5))
      (Some (flat 0.25))).2
   = Raise IndexError /\
   forall c,
     ~ In (EvSail c)
         (demo_run_prosail
            (globals_with (failing_prospect IndexError)
               (failing_sail IndexError)
               {| rsoil1 := flat 0.5; rsoil2 := flat 0.25 |})
            "BHR" (Some (flat 0.125)) None None (Some (flat 0.5))
            (Some (flat 0.25))).1).
Proof.
  assert (H : str_in (upper "BHR") factors = true) by reflexivity.
  pose proof (demo_resolves_precomputed
                (Some {| rsoil1 := flat 0.5; rsoil2 := flat 0.25 |})
                (flat 0.125)) as R.
  destruct (model_exceptions_propagate
              (globals_with (failing_prospect IndexError)
                 (failing_sail IndexError)
                 {| rsoil1 := flat 0.5; rsoil2 := flat 0.25 |})
              (flat 0.5) (flat 0.25)
              1.5 40 8 0 0.5 0.5 0 40 3 50 0.5 30 0 0 0 "5" 2
              "BHR" (Some (flat 0.125)) None None
              (Some (flat 0.5)) (Some (flat 0.25)) (flat 0.125) IndexError
              H R)
    as (A & B).
  exact (conj H
           (conj R
              (conj (A (failing_sail IndexError) eq_refl eq_refl)
                 (proj1 (B (flat 1) (flat 0.5) (flat 0.25) (flat 0) (flat 0)
                           (flat 0) (flat 0) eq_refl eq_refl eq_refl eq_refl
                           eq_refl eq_refl eq_refl)
                    eq_refl)))).
Defined.

(** X7 at work: a call that returns row 0 of the demo canopy model. *)
Lemma run_sail_returns_only_when_valid_witness :
  demo_run_sail demo_globals "SDR" (Some (flat 0.125)) None None
    (Some (flat 0.5)) (Some (flat 0.25))
  = ([EvSail (demo_canopy_call (flat 0.125))],
     Return (RetSpectrum (flat 0.125))) /\
  str_in (upper "SDR") factors = true /\
  (forall s, Some (flat 0.5) = Some s -> length s = 2101) /\
  exists sail soil rho,
    g_sail demo_globals = Some sail /\
    sail (demo_canopy_call soil) = Return rho /\
    (forall r, Some (flat 0.125) = Some r -> soil = r) /\
    last [EvSail (demo_canopy_call (flat 0.125))]
    = Some (EvSail (demo_canopy_call soil)) /\
    (RetSpectrum (flat 0.125) = RetAll rho \/
     exists k r, k < 4 /\ rho !! k = Some r /\
                 RetSpectrum (flat 0.125) = RetSpectrum r).
Proof.
  assert (H : demo_run_sail demo_globals "SDR" (Some (flat 0.125)) None None
                (Some (flat 0.5)) (Some (flat 0.25))
              = ([EvSail (demo_canopy_call (flat 0.125))],
                 Return (RetSpectrum (flat 0.125))))
    by (vm_compute; reflexivity).
  destruct (run_sail_returns_only_when_valid demo_globals (flat 0.5)
              (flat 0.25) 3 50 0.5 30 0 0 0 2
              "SDR" (Some (flat 0.125)) None None
              (Some (flat 0.5)) (Some (flat 0.25)) _ _ H)
    as (A & B & _ & _ & E).
  exact (conj H (conj A (conj B E))).
Defined.

(** X8 at work: the demo leaf model returns the very spectra that
    [demo_run_sail] is given. *)
Lemma run_prosail_is_leaf_then_run_sail_witness :
  (demo_run_prosail demo_globals "HDR" None (Some 1%float) (Some 0.5%float)
     (Some (flat 0.5)) None).2
  = (demo_run_sail demo_globals "HDR" None (Some 1%float) (Some 0.5%float)
       (Some (flat 0.5)) None).2 \/
  (@None spectrum = None /\
   (Some 1%float = None \/ Some 0.5%float = None) /\
   (demo_run_prosail demo_globals "HDR" None (Some 1%float) (Some 0.5%float)
      (Some (flat 0.5)) None).2
   = Raise (ValueError prosail_soil_msg) /\
   (demo_run_sail demo_globals "HDR" None (Some 1%float) (Some 0.5%float)
      (Some (flat 0.5)) None).2
   = Raise (ValueError sail_soil_msg)).
Proof.
  exact (run_prosail_is_leaf_then_run_sail demo_globals
           1.5 40 8 0 0.5 0.5 0 40 3 50 0.5 30 0 0 0 "5" 2
           "HDR" None (Some 1%float) (Some 0.5%float) (Some (flat 0.5)) None
           (flat 1) (flat 0.5) (flat 0.25) (flat 0) (flat 0) (flat 0)
           (flat 0) (flat 1) (flat 0.5) (flat 0.25)
           eq_refl eq_refl eq_refl eq_refl eq_refl eq_refl eq_refl eq_refl).
Defined.

(** X10 at work: a canopy model that answers with two rows. *)
Lemma canopy_result_shape_unchecked_witness :
  (demo_run_sail
     (globals_with demo_prospect two_row_sail
        {| rsoil1 := flat 0.5; rsoil2 := flat 0.25 |})
     "ALL" (Some (flat 0.125)) None None (Some (flat 0.5))
     (Some (flat 0.25))).2
  = Return (RetAll [flat 0.125; np_scale 2 (flat 0.125)]) /\
  (demo_run_sail
     (globals_with demo_prospect two_row_sail
        {| rsoil1 := flat 0.5; rsoil2 := flat 0.25 |})
     "BHR" (Some (flat 0.125)) None None (Some (flat 0.5))
     (Some (flat 0.25))).2
  = Return (RetSpectrum (np_scale 2 (flat 0.125))) /\
  (demo_run_sail
     (globals_with demo_prospect two_row_sail
        {| rsoil1 := flat 0.5; rsoil2 := flat 0.25 |})
     "DHR" (Some (flat 0.125)) None None (Some (flat 0.5))
     (Some (flat 0.25))).2
  = Raise IndexError.
Proof.
  destruct (canopy_result_shape_unchecked
              (globals_with demo_prospect two_row_sail
                 {| rsoil1 := flat 0.5; rsoil2 := flat 0.25 |})
              (flat 0.5) (flat 0.25) 3 50 0.5 30 0 0 0 2
              (Some (flat 0.125)) None None (Some (flat 0.5))
              (Some (flat 0.25)) (flat 0.125) two_row_sail
              [flat 0.125; np_scale 2 (flat 0.125)]
              (demo_resolves_precomputed _ _) eq_refl eq_refl)
    as (A & B).
  exact (conj A
           (conj (proj1 (B 1 "BHR" eq_refl)) (proj1 (B 2 "DHR" eq_refl)))).
Defined.


(** X12 at work: a second component of the single entry 0.25. *)
Lemma one_entry_soil_spectrum2_is_broadcast_witness :
  length (flat 0.5) = 2101 /\
  exists v,
    demo_run_sail demo_globals "SDR" None (Some 3%float) (Some 0.5%float)
      (Some (flat 0.5)) (Some [0.25%float])
    = ([EvMix;
        EvSail (demo_canopy_call
                  (map (fun x1 => (3 * (0.5 * x1 + (1 - 0.5) * 0.25))%float)
                     (flat 0.5)))], v).
Proof.
  exact (conj (length_flat 0.5)
           (one_entry_soil_spectrum2_is_broadcast demo_globals
              (flat 0.5) (flat 0.25) 3 50 0.5 30 0 0 0 2
              "SDR" 3%float 0.5%float (flat 0.5) 0.25%float demo_sail
              (length_flat 0.5) eq_refl eq_refl)).
Defined.

(** X13 at work: default spectra of 2100 entries reach the canopy model. *)
Lemma default_spectra_not_length_checked_witness :
  length (rsoil1 short_libs) = length (rsoil2 short_libs) /\
  length (rsoil1 short_libs) <> 2101 /\
  exists v,
    demo_run_sail (globals_with demo_prospect demo_sail short_libs)
      "SDR" None (Some 3%float) (Some 0.5%float) None None
    = ([EvMix;
        EvSail (demo_canopy_call
                  (zip_with
                     (fun x1 x2 =>
                        (3 * (0.5 * x1 + (1 - 0.5) * x2))%float)
                     (short 0.5) (short 0.25)))], v).
Proof.
  assert (H : length (rsoil1 short_libs) = length (rsoil2 short_libs))
    by reflexivity.
  exact (conj H
           (conj (length_short 0.5)
              (default_spectra_not_length_checked
                 (globals_with demo_prospect demo_sail short_libs)
                 (flat 0.5) (flat 0.25) 3 50 0.5 30 0 0 0 2
                 "SDR" 3%float 0.5%float short_libs demo_sail
                 eq_refl H eq_refl eq_refl))).
Defined.

(** X14 at work: with default spectra of 2100 entries, a well-formed
    [soil_spectrum2] of 2101 entries is refused. *)
Lemma second_assertion_tests_first_component_witness :
  length (rsoil1 short_libs) <> 2101 /\ length (flat 0.25) = 2101 /\
  demo_run_sail (globals_with demo_prospect demo_sail short_libs)
    "SDR" None (Some 3%float) (Some 0.5%float) None (Some (flat 0.25))
  = ([], Raise AssertionError) /\
  demo_run_prosail (globals_with demo_prospect demo_sail short_libs)
    "SDR" None (Some 3%float) (Some 0.5%float) None (Some (flat 0.25))
  = ([], Raise AssertionError).
Proof.
  destruct (second_assertion_tests_first_component
              (globals_with demo_prospect demo_sail short_libs)
              (flat 0.5) (flat 0.25)
              1.5 40 8 0 0.5 0.5 0 40 3 50 0.5 30 0 0 0 "5" 2
              "SDR" None (Some 3%float) (Some 0.5%float) short_libs
              (flat 0.25) eq_refl (length_short 0.5) eq_refl)
    as (A & B & _).
  exact (conj (length_short 0.5) (conj (length_flat 0.25) (conj A B))).
Defined.
